(** * The region request sender of the TiKV client (store/tikv/region_request.go)

    A shallow embedding of [RegionRequestSender]: its two entry points
    [SendKVReq] and [SendCopReq], the per-kind dispatch helpers
    [sendKVReqToRegion] and [sendCopReqToRegion], and the two recovery
    routines [onSendFail] and [onRegionError].

    The sender owns no data of its own.  It drives three collaborators (the
    region cache, the backoffer and the transport client) that live outside
    this file of the package; they are taken here as an interface over an
    abstract world state.  The sender is written in a small state monad whose
    state holds the world, the caller's request (the sender assigns its
    [Context] field in place) and a log of the collaborator calls made so far.
    The log is ghost state: the sender never reads it. *)

From Stdlib Require Import ZArith List String Bool Lia.
Import ListNotations.
Local Open Scope Z_scope.
Local Open Scope string_scope.
Local Open Scope list_scope.

(** ** Messages *)

(** [time.Duration] is a 64-bit count of nanoseconds. *)
Definition Duration := Z.

(** [kvrpcpb.MessageType] is a protobuf enum, an int32. *)
Definition MessageType := Z.

(** Modelled from the spec: the region version identity, "a specific
    (region, replication-epoch) pair"; the declaration of [RegionVerID] is in
    another file of the package. *)
Record RegionVerID := mkRegionVerID { ver_region : Z; ver_epoch : Z }.

(** Modelled from the spec: the routing context embedded into outgoing
    requests, [kvrpcpb.Context]; the sender only copies it. *)
Record Context := mkContext { ctx_region : Z; ctx_epoch : Z; ctx_peer : Z }.

(** [metapb.Peer]. *)
Record Peer := mkPeer { peer_Id : Z; peer_StoreId : Z }.

(** [metapb.Region], the description of a successor region. *)
Record RegionMeta := mkRegionMeta
  { meta_Id : Z; meta_Epoch : Z; meta_Peers : list (Peer * string) }.

(** The three sub-messages of [errorpb.Error] that the sender inspects. *)
Record NotLeader := mkNotLeader { nl_RegionId : Z; nl_Leader : option Peer }.
Record StaleEpoch := mkStaleEpoch { se_NewRegions : list RegionMeta }.
Record ServerIsBusy := mkServerIsBusy { busy_Reason : string }.

(** [errorpb.Error]: a protobuf message whose variants are optional fields.
    The sender classifies it by testing the fields in a fixed order. *)
Record Error := mkError
  { err_Message : string;
    err_NotLeader : option NotLeader;
    err_StaleEpoch : option StaleEpoch;
    err_ServerIsBusy : option ServerIsBusy }.

Record KVRequest := mkKVRequest
  { kvreq_Type : MessageType; kvreq_Context : option Context; kvreq_Body : string }.

Record KVResponse := mkKVResponse
  { kvresp_Type : MessageType; kvresp_RegionError : option Error; kvresp_Body : string }.

Record CopRequest := mkCopRequest
  { copreq_Context : option Context; copreq_Data : string }.

Record CopResponse := mkCopResponse
  { copresp_RegionError : option Error; copresp_Data : string }.

(** Modelled from the spec: the region snapshot obtained from the cache, seen
    through the three getters the sender calls on it ([VerID], [GetContext],
    [GetAddress]); the declaration of [Region] is in another file. *)
Record Region := mkRegion
  { region_VerID : RegionVerID; region_Context : Context; region_Address : string }.

(** The assignment [req.Context = c], for each request kind. *)
Definition KVRequest_setContext (req : KVRequest) (c : Context) : KVRequest :=
  mkKVRequest (kvreq_Type req) (Some c) (kvreq_Body req).

Definition CopRequest_setContext (req : CopRequest) (c : Context) : CopRequest :=
  mkCopRequest (Some c) (copreq_Data req).

(** Generated protobuf getters accept a nil receiver. *)
Definition GetLeader (nl : NotLeader) : option Peer := nl_Leader nl.

Definition GetId (p : option Peer) : Z :=
  match p with Some p => peer_Id p | None => 0 end.

Definition KVResponse_GetRegionError (r : option KVResponse) : option Error :=
  match r with Some r => kvresp_RegionError r | None => None end.

Definition KVResponse_GetType (r : option KVResponse) : MessageType :=
  match r with Some r => kvresp_Type r | None => 0 end.

Definition CopResponse_GetRegionError (r : option CopResponse) : option Error :=
  match r with Some r => copresp_RegionError r | None => None end.

(** ** Errors *)

(** The backoff classes used by the sender (constants of the backoffer). *)
Inductive backoffType := boTiKVRPC | boRegionMiss | boServerBusy.

(** Go [error] values.  [ErrOpaque] stands for errors made by the
    collaborators; the [Errorf] messages built by the sender keep their
    arguments instead of the rendered text; [Traced] is the annotation that
    [errors.Trace] wraps around a non-nil error. *)
Inductive error :=
| ErrOpaque (msg : string)
| ErrSendFail (cause : error) (ctx : Context)
| ErrNotLeader (nl : NotLeader) (ctx : Context)
| ErrServerBusy
| ErrMismatch (resp : option KVResponse) (req : KVRequest)
| Traced (e : error).

(** [errors.Trace]: nil stays nil. *)
Definition Trace (e : option error) : option error :=
  match e with Some e => Some (Traced e) | None => None end.

(** [errors.Cause]: the error under its trace annotations. *)
Fixpoint Cause (e : error) : error :=
  match e with Traced e' => Cause e' | _ => e end.

(** [errMismatch] builds the protocol-mismatch error (another file). *)
Definition errMismatch (resp : option KVResponse) (req : KVRequest) : error :=
  ErrMismatch resp req.

(** ** Collaborators *)

(** The calls the sender makes on its collaborators. *)
Inductive Event :=
| EvCtxDone
| EvGetRegionByVerID (id : RegionVerID)
| EvNextPeer (id : RegionVerID)
| EvUpdateLeader (id : RegionVerID) (leader : Z)
| EvDropRegion (id : RegionVerID)
| EvOnRegionStale (r : Region) (newRegions : list RegionMeta)
| EvBackoff (typ : backoffType) (detail : error)
| EvSendKVReq (addr : string) (req : KVRequest) (timeout : Duration)
| EvSendCopReq (addr : string) (req : CopRequest) (timeout : Duration)
| EvReportRegionError (e : Error).

(** The interface of the collaborators over a world state [W]: the
    backoffer's context ([ctx_Err] is non-nil exactly when [ctx.Done()] has
    fired), the region cache, the backoffer and the transport client.  Reads
    leave the world alone; every other call yields the next world, which is
    where elapsed time and the activity of other callers show. *)
Class Collaborators (W : Type) := {
  ctx_Err : W -> option error;
  GetRegionByVerID : W -> RegionVerID -> option Region;
  NextPeer : W -> RegionVerID -> W;
  UpdateLeader : W -> RegionVerID -> Z -> W;
  DropRegion : W -> RegionVerID -> W;
  OnRegionStale : W -> Region -> list RegionMeta -> W * option error;
  Backoff : W -> backoffType -> error -> W * option error;
  client_SendKVReq : W -> string -> KVRequest -> Duration -> W * (KVResponse + error);
  client_SendCopReq : W -> string -> CopRequest -> Duration -> W * (CopResponse + error)
}.

(** ** The sender's monad *)

Record St (W Req : Type) := mkSt
  { st_world : W; st_req : Req; st_log : list Event }.

Definition M (W Req A : Type) := St W Req -> A * St W Req.

Definition ret {W Req A} (a : A) : M W Req A := fun s => (a, s).

Definition bind {W Req A B} (m : M W Req A) (k : A -> M W Req B) : M W Req B :=
  fun s => let (a, s') := m s in k a s'.

Declare Scope sender_scope.
Delimit Scope sender_scope with sender.
Notation "x <- m ;; k" := (bind m (fun x => k))
  (at level 100, m at next level, right associativity) : sender_scope.
Notation "m ;;; k" := (bind m (fun _ => k))
  (at level 100, right associativity) : sender_scope.
Local Open Scope sender_scope.

(** The outcome of one pass through a [for] body. *)
Inductive Step (A : Type) := Continue | Return (a : A).
Arguments Continue {A}.
Arguments Return {A} a.
Arguments mkSt {W Req} _ _ _.
Arguments st_world {W Req} _.
Arguments st_req {W Req} _.
Arguments st_log {W Req} _.

Section Sender.

Context {W : Type} `{Collaborators W}.

Section Calls.

Context {Req : Type}.

Definition emit (e : Event) : M W Req unit :=
  fun s => (tt, mkSt (st_world s) (st_req s) (st_log s ++ [e])).

(** A read of the world. *)
Definition observe {A} (f : W -> A) : M W Req A :=
  fun s => (f (st_world s), s).

(** A call that moves the world on. *)
Definition perform {A} (f : W -> W * A) : M W Req A :=
  fun s => let (w', a) := f (st_world s) in (a, mkSt w' (st_req s) (st_log s)).

Definition getReq : M W Req Req := fun s => (st_req s, s).

Definition putReq (r : Req) : M W Req unit :=
  fun s => (tt, mkSt (st_world s) r (st_log s)).

Definition ctxDone : M W Req (option error) :=
  emit EvCtxDone ;;; observe ctx_Err.

Definition cache_GetRegionByVerID (id : RegionVerID) : M W Req (option Region) :=
  emit (EvGetRegionByVerID id) ;;; observe (fun w => GetRegionByVerID w id).

Definition cache_NextPeer (id : RegionVerID) : M W Req unit :=
  emit (EvNextPeer id) ;;; perform (fun w => (NextPeer w id, tt)).

Definition cache_UpdateLeader (id : RegionVerID) (leader : Z) : M W Req unit :=
  emit (EvUpdateLeader id leader) ;;; perform (fun w => (UpdateLeader w id leader, tt)).

Definition cache_DropRegion (id : RegionVerID) : M W Req unit :=
  emit (EvDropRegion id) ;;; perform (fun w => (DropRegion w id, tt)).

Definition cache_OnRegionStale (r : Region) (news : list RegionMeta)
  : M W Req (option error) :=
  emit (EvOnRegionStale r news) ;;; perform (fun w => OnRegionStale w r news).

Definition bo_Backoff (typ : backoffType) (detail : error) : M W Req (option error) :=
  emit (EvBackoff typ detail) ;;; perform (fun w => Backoff w typ detail).

(** [reportRegionError] counts the error in a metric. *)
Definition reportRegionError (e : Error) : M W Req unit :=
  emit (EvReportRegionError e).

(** [onSendFail]. *)
Definition onSendFail (regionID : RegionVerID) (ctx : Context) (err : error)
  : M W Req (option error) :=
  cache_NextPeer regionID ;;;
  err <- bo_Backoff boTiKVRPC (ErrSendFail err ctx) ;;
  ret (Trace err).

(** [onRegionError]: the result is the pair [(retry, err)].  A branch of the
    [if]/[else if] chain either returns on its own ([Some]) or falls through
    ([None]) to the [return true, nil] that ends the function.  The
    [log.Warnf] lines write to the process log and are left out. *)
Definition onRegionError (region : Region) (regionErr : Error)
  : M W Req (bool * option error) :=
  reportRegionError regionErr ;;;
  returned <-
    match err_NotLeader regionErr with
    | Some notLeader =>
        cache_UpdateLeader (region_VerID region) (GetId (GetLeader notLeader)) ;;;
        match GetLeader notLeader with
        | None =>
            err <- bo_Backoff boRegionMiss
                     (ErrNotLeader notLeader (region_Context region)) ;;
            match err with
            | Some _ => ret (Some (false, Trace err))
            | None => ret None
            end
        | Some _ => ret None
        end
    | None =>
        match err_StaleEpoch regionErr with
        | Some staleEpoch =>
            err <- cache_OnRegionStale region (se_NewRegions staleEpoch) ;;
            ret (Some (false, Trace err))
        | None =>
            match err_ServerIsBusy regionErr with
            | Some _ =>
                err <- bo_Backoff boServerBusy ErrServerBusy ;;
                match err with
                | Some _ => ret (Some (false, Trace err))
                | None => ret None
                end
            | None =>
                (* For other errors, we only drop cache here. *)
                cache_DropRegion (region_VerID region) ;;;
                ret None
            end
        end
    end ;;
  match returned with
  | Some r => ret r
  | None => ret (true, None)
  end.

End Calls.

(** [sendKVReqToRegion]: the result is [(resp, retry, err)]. *)
Definition sendKVReqToRegion (region : Region) (timeout : Duration)
  : M W KVRequest (option KVResponse * bool * option error) :=
  req <- getReq ;;
  let req := KVRequest_setContext req (region_Context region) in
  putReq req ;;;
  emit (EvSendKVReq (region_Address region) req timeout) ;;;
  r <- perform (fun w => client_SendKVReq w (region_Address region) req timeout) ;;
  match r with
  | inr err =>
      e <- onSendFail (region_VerID region) (region_Context region) err ;;
      match e with
      | Some _ => ret (None, false, Trace e)
      | None => ret (None, true, None)
      end
  | inl resp => ret (Some resp, false, None)
  end.

(** [sendCopReqToRegion]: on a failed recovery it traces [err], the
    transport's error, where the KV helper traces [e]. *)
Definition sendCopReqToRegion (region : Region) (timeout : Duration)
  : M W CopRequest (option CopResponse * bool * option error) :=
  req <- getReq ;;
  let req := CopRequest_setContext req (region_Context region) in
  putReq req ;;;
  emit (EvSendCopReq (region_Address region) req timeout) ;;;
  r <- perform (fun w => client_SendCopReq w (region_Address region) req timeout) ;;
  match r with
  | inr err =>
      e <- onSendFail (region_VerID region) (region_Context region) err ;;
      match e with
      | Some _ => ret (None, false, Trace (Some err))
      | None => ret (None, true, None)
      end
  | inl resp => ret (Some resp, false, None)
  end.

(** What an entry point hands back: the Go pair [(resp, err)]. *)
Definition Outcome (Resp : Type) := (option Resp * option error)%type.

Definition MessageType_eqb (a b : MessageType) : bool := Z.eqb a b.

(** The end of the [SendKVReq] body: the kind check and the final return. *)
Definition kvReturn (resp : option KVResponse) : M W KVRequest (Step (Outcome KVResponse)) :=
  req <- getReq ;;
  if negb (MessageType_eqb (KVResponse_GetType resp) (kvreq_Type req))
  then ret (Return (None, Trace (Some (errMismatch resp req))))
  else ret (Return (resp, None)).

(** One pass through the body of the [for] loop of [SendKVReq]. *)
Definition SendKVReq_body (regionID : RegionVerID) (timeout : Duration)
  : M W KVRequest (Step (Outcome KVResponse)) :=
  done <- ctxDone ;;
  match done with
  | Some _ => ret (Return (None, Trace done))
  | None =>
      region <- cache_GetRegionByVerID regionID ;;
      match region with
      | None =>
          req <- getReq ;;
          ret (Return
                 (Some (mkKVResponse (kvreq_Type req)
                          (Some (mkError "" None (Some (mkStaleEpoch [])) None)) ""),
                  None))
      | Some region =>
          r <- sendKVReqToRegion region timeout ;;
          let '(resp, retry, err) := r in
          match err with
          | Some _ => ret (Return (None, Trace err))
          | None =>
              if retry then ret Continue
              else
                match KVResponse_GetRegionError resp with
                | Some regionErr =>
                    r <- onRegionError region regionErr ;;
                    let '(retry, err) := r in
                    match err with
                    | Some _ => ret (Return (None, Trace err))
                    | None => if retry then ret Continue else kvReturn resp
                    end
                | None => kvReturn resp
                end
          end
      end
  end.

(** One pass through the body of the [for] loop of [SendCopReq]. *)
Definition SendCopReq_body (regionID : RegionVerID) (timeout : Duration)
  : M W CopRequest (Step (Outcome CopResponse)) :=
  region <- cache_GetRegionByVerID regionID ;;
  match region with
  | None =>
      ret (Return
             (Some (mkCopResponse
                      (Some (mkError "" None (Some (mkStaleEpoch [])) None)) ""),
              None))
  | Some region =>
      r <- sendCopReqToRegion region timeout ;;
      let '(resp, retry, err) := r in
      match err with
      | Some _ => ret (Return (None, Trace err))
      | None =>
          if retry then ret Continue
          else
            match CopResponse_GetRegionError resp with
            | Some regionErr =>
                r <- onRegionError region regionErr ;;
                let '(retry, err) := r in
                match err with
                | Some _ => ret (Return (None, Trace err))
                | None => if retry then ret Continue else ret (Return (resp, None))
                end
            | None => ret (Return (resp, None))
            end
      end
  end.

(** The unbounded [for] loop, run for at most [fuel] passes; [None] means the
    loop is still running after that many. *)
Fixpoint loop {Req A} (body : M W Req (Step A)) (fuel : nat) (s : St W Req)
  : option (A * St W Req) :=
  match fuel with
  | O => None
  | S fuel' =>
      match body s with
      | (Return a, s') => Some (a, s')
      | (Continue, s') => loop body fuel' s'
      end
  end.

(** [SendKVReq], from the state in which the call is made. *)
Definition SendKVReq (fuel : nat) (regionID : RegionVerID) (timeout : Duration)
  (s : St W KVRequest) : option (Outcome KVResponse * St W KVRequest) :=
  loop (SendKVReq_body regionID timeout) fuel s.

(** [SendCopReq]. *)
Definition SendCopReq (fuel : nat) (regionID : RegionVerID) (timeout : Duration)
  (s : St W CopRequest) : option (Outcome CopResponse * St W CopRequest) :=
  loop (SendCopReq_body regionID timeout) fuel s.

End Sender.

(** ** What the log says *)

(** The variant of a region error, by the order in which [onRegionError]
    tests the fields. *)
Inductive Variant := VNotLeader | VStaleEpoch | VServerIsBusy | VOther.

Definition variant (e : Error) : Variant :=
  match err_NotLeader e, err_StaleEpoch e, err_ServerIsBusy e with
  | Some _, _, _ => VNotLeader
  | None, Some _, _ => VStaleEpoch
  | None, None, Some _ => VServerIsBusy
  | None, None, None => VOther
  end.

Definition is_cache_mutation (e : Event) : bool :=
  match e with
  | EvNextPeer _ | EvUpdateLeader _ _ | EvDropRegion _ | EvOnRegionStale _ _ => true
  | _ => false
  end.

Definition is_backoff (e : Event) : bool :=
  match e with EvBackoff _ _ => true | _ => false end.

Definition is_transport (e : Event) : bool :=
  match e with EvSendKVReq _ _ _ | EvSendCopReq _ _ _ => true | _ => false end.

Definition is_recovery (e : Event) : bool := is_cache_mutation e || is_backoff e.

Definition is_next_peer (e : Event) : bool :=
  match e with EvNextPeer _ => true | _ => false end.

(** The state in which a KV pass stands once the transport call has come back
    with world [w1]: the context check, the lookup and the dispatch are
    logged, and the request carries the snapshot's context. *)
Definition kvDispatched {W} (s : St W KVRequest) (id : RegionVerID) (region : Region)
  (timeout : Duration) (w1 : W) : St W KVRequest :=
  let req := KVRequest_setContext (st_req s) (region_Context region) in
  mkSt w1 req
    (st_log s ++ [EvCtxDone; EvGetRegionByVerID id;
                  EvSendKVReq (region_Address region) req timeout]).

(** The same for a coprocessor pass, which makes no context check. *)
Definition copDispatched {W} (s : St W CopRequest) (id : RegionVerID) (region : Region)
  (timeout : Duration) (w1 : W) : St W CopRequest :=
  let req := CopRequest_setContext (st_req s) (region_Context region) in
  mkSt w1 req
    (st_log s ++ [EvGetRegionByVerID id;
                  EvSendCopReq (region_Address region) req timeout]).

(** Appending to a state's log. *)
Definition logged {W Req} (s : St W Req) (w : W) (evs : list Event) : St W Req :=
  mkSt w (st_req s) (st_log s ++ evs).

(** The placeholder error of a region the cache does not know:
    [&errorpb.Error{StaleEpoch: &errorpb.StaleEpoch{}}]. *)
Definition staleEpochNoSuccessors : Error :=
  mkError "" None (Some (mkStaleEpoch [])) None.

(** The shape of an outcome: a Response and no error, where the Response's
    Region Error, if it has one, is of a variant in [ok]; or an error and no
    Response. *)
Definition well_formed {Resp} (regionError : Resp -> option Error)
  (ok : Variant -> Prop) (out : Outcome Resp) : Prop :=
  match out with
  | (Some r, None) => forall e, regionError r = Some e -> ok (variant e)
  | (None, Some _) => True
  | _ => False
  end.

(** What sends a pass round again: a failed transport call ([inr]) or the
    Region Error of the Response ([inl]); nothing for a Response without
    one. *)
Definition kvTrouble (a : KVResponse + error) : option (Error + error) :=
  match a with
  | inr err => Some (inr err)
  | inl resp => option_map inl (kvresp_RegionError resp)
  end.

Definition copTrouble (a : CopResponse + error) : option (Error + error) :=
  match a with
  | inr err => Some (inr err)
  | inl resp => option_map inl (copresp_RegionError resp)
  end.

(** The recoveries after which the sender retries.  [Recovered region w1 t
    evs w2]: from the world [w1] that the transport call left, the trouble
    [t] was met by the collaborator calls [evs], which all succeeded and left
    the world [w2]. *)
Inductive Recovered {W} `{Collaborators W} (region : Region) (w1 : W)
  : Error + error -> list Event -> W -> Prop :=
| Recovered_send_fail err w2 :
    Backoff (NextPeer w1 (region_VerID region)) boTiKVRPC
      (ErrSendFail err (region_Context region)) = (w2, None) ->
    Recovered region w1 (inr err)
      [EvNextPeer (region_VerID region);
       EvBackoff boTiKVRPC (ErrSendFail err (region_Context region))] w2
| Recovered_leader e nl p :
    err_NotLeader e = Some nl -> nl_Leader nl = Some p ->
    Recovered region w1 (inl e)
      [EvReportRegionError e; EvUpdateLeader (region_VerID region) (peer_Id p)]
      (UpdateLeader w1 (region_VerID region) (peer_Id p))
| Recovered_no_leader e nl w2 :
    err_NotLeader e = Some nl -> nl_Leader nl = None ->
    Backoff (UpdateLeader w1 (region_VerID region) 0) boRegionMiss
      (ErrNotLeader nl (region_Context region)) = (w2, None) ->
    Recovered region w1 (inl e)
      [EvReportRegionError e; EvUpdateLeader (region_VerID region) 0;
       EvBackoff boRegionMiss (ErrNotLeader nl (region_Context region))] w2
| Recovered_busy e b w2 :
    err_NotLeader e = None -> err_StaleEpoch e = None ->
    err_ServerIsBusy e = Some b ->
    Backoff w1 boServerBusy ErrServerBusy = (w2, None) ->
    Recovered region w1 (inl e)
      [EvReportRegionError e; EvBackoff boServerBusy ErrServerBusy] w2
| Recovered_drop e :
    err_NotLeader e = None -> err_StaleEpoch e = None ->
    err_ServerIsBusy e = None ->
    Recovered region w1 (inl e)
      [EvReportRegionError e; EvDropRegion (region_VerID region)]
      (DropRegion w1 (region_VerID region)).

(** ** A scripted world *)

Module Scripted.

(** Modelled from the spec: a cache entry, "peer set, leader": the peers with
    their addresses and the index of the selected one.  The region cache is in
    another file of the package. *)
Record Entry := mkEntry { e_peers : list (Peer * string); e_sel : nat }.

(** A world whose transport answers from a script and whose backoffer has a
    budget of charges left. *)
Record World := mkWorld
  { w_ctxErr : option error;
    w_cache : list (RegionVerID * Entry);
    w_staleErr : option error;
    w_budget : nat;
    w_kv : list (KVResponse + error);
    w_cop : list (CopResponse + error) }.

Definition RegionVerID_eqb (a b : RegionVerID) : bool :=
  Z.eqb (ver_region a) (ver_region b) && Z.eqb (ver_epoch a) (ver_epoch b).

Fixpoint lookup (c : list (RegionVerID * Entry)) (id : RegionVerID) : option Entry :=
  match c with
  | [] => None
  | (k, e) :: c' => if RegionVerID_eqb k id then Some e else lookup c' id
  end.

Fixpoint update (c : list (RegionVerID * Entry)) (id : RegionVerID) (f : Entry -> Entry)
  : list (RegionVerID * Entry) :=
  match c with
  | [] => []
  | (k, e) :: c' =>
      if RegionVerID_eqb k id then (k, f e) :: c' else (k, e) :: update c' id f
  end.

Definition remove (c : list (RegionVerID * Entry)) (id : RegionVerID)
  : list (RegionVerID * Entry) :=
  filter (fun ke => negb (RegionVerID_eqb (fst ke) id)) c.

Fixpoint index_of (ps : list (Peer * string)) (leader : Z) : option nat :=
  match ps with
  | [] => None
  | (p, _) :: ps' =>
      if Z.eqb (peer_Id p) leader then Some O
      else match index_of ps' leader with Some i => Some (S i) | None => None end
  end.

Definition withCache (w : World) (c : list (RegionVerID * Entry)) : World :=
  mkWorld (w_ctxErr w) c (w_staleErr w) (w_budget w) (w_kv w) (w_cop w).

(** Modelled from the spec: [Cache.ResolveByVersion(identity)], a snapshot of
    the selected peer or nothing. *)
Definition getRegion (w : World) (id : RegionVerID) : option Region :=
  match lookup (w_cache w) id with
  | None => None
  | Some e =>
      match nth_error (e_peers e) (e_sel e) with
      | None => None
      | Some (p, addr) =>
          Some (mkRegion id (mkContext (ver_region id) (ver_epoch id) (peer_Id p)) addr)
      end
  end.

(** Modelled from the spec: [Cache.AdvancePeer(identity)], "mark current peer
    as failed, select next". *)
Definition nextPeer (w : World) (id : RegionVerID) : World :=
  withCache w (update (w_cache w) id
    (fun e => mkEntry (e_peers e) (Nat.modulo (S (e_sel e)) (List.length (e_peers e))))).

(** Modelled from the spec: [Cache.UpdateLeader(identity, leaderPeerId?)]; an
    id that names no peer of the entry leaves the selection as it is. *)
Definition updateLeader (w : World) (id : RegionVerID) (leader : Z) : World :=
  withCache w (update (w_cache w) id
    (fun e => match index_of (e_peers e) leader with
              | Some i => mkEntry (e_peers e) i
              | None => e
              end)).

(** Modelled from the spec: [Cache.Drop(identity)], "evict, forcing full
    re-resolution". *)
Definition dropRegion (w : World) (id : RegionVerID) : World :=
  withCache w (remove (w_cache w) id).

(** Modelled from the spec: [Cache.ReplaceWithSuccessors(identity,
    successorRegions[])]; it fails when the world says so. *)
Definition onRegionStale (w : World) (r : Region) (news : list RegionMeta)
  : World * option error :=
  match w_staleErr w with
  | Some e => (w, Some e)
  | None =>
      (withCache w
         (map (fun m => (mkRegionVerID (meta_Id m) (meta_Epoch m),
                         mkEntry (meta_Peers m) O)) news
          ++ remove (w_cache w) (region_VerID r)),
       None)
  end.

(** Modelled from the spec: [Backoff.Charge(budgetName, detail)], "Ok |
    Exhausted/Cancelled", with one budget for all classes. *)
Definition backoff (w : World) (typ : backoffType) (detail : error)
  : World * option error :=
  match w_budget w with
  | O => (w, Some (ErrOpaque "backoffer.maxSleep is exceeded"))
  | S n => (mkWorld (w_ctxErr w) (w_cache w) (w_staleErr w) n (w_kv w) (w_cop w), None)
  end.

(** The transport answers with the next entry of its script. *)
Definition sendKV (w : World) (addr : string) (req : KVRequest) (timeout : Duration)
  : World * (KVResponse + error) :=
  match w_kv w with
  | [] => (w, inr (ErrOpaque "connection refused"))
  | r :: rs =>
      (mkWorld (w_ctxErr w) (w_cache w) (w_staleErr w) (w_budget w) rs (w_cop w), r)
  end.

Definition sendCop (w : World) (addr : string) (req : CopRequest) (timeout : Duration)
  : World * (CopResponse + error) :=
  match w_cop w with
  | [] => (w, inr (ErrOpaque "connection refused"))
  | r :: rs =>
      (mkWorld (w_ctxErr w) (w_cache w) (w_staleErr w) (w_budget w) (w_kv w) rs, r)
  end.

#[global] Instance scripted : Collaborators World := {
  ctx_Err := w_ctxErr;
  GetRegionByVerID := getRegion;
  NextPeer := nextPeer;
  UpdateLeader := updateLeader;
  DropRegion := dropRegion;
  OnRegionStale := onRegionStale;
  Backoff := backoff;
  client_SendKVReq := sendKV;
  client_SendCopReq := sendCop
}.

(** Region 1 at epoch 3, held by the peers p1 and p2, p1 selected. *)
Definition R1 : RegionVerID := mkRegionVerID 1 3.
Definition p1 : Peer := mkPeer 101 1.
Definition p2 : Peer := mkPeer 102 2.
Definition cache1 : list (RegionVerID * Entry) :=
  [(R1, mkEntry [(p1, "store1:20160"); (p2, "store2:20160")] O)].

Definition kvReq : KVRequest := mkKVRequest 1 None "get k".
Definition copReq : CopRequest := mkCopRequest None "select".

Definition okKV : KVResponse := mkKVResponse 1 None "v".
Definition okCop : CopResponse := mkCopResponse None "rows".

Definition notLeaderErr (leader : option Peer) : Error :=
  mkError "not leader" (Some (mkNotLeader 1 leader)) None None.
Definition staleErr (news : list RegionMeta) : Error :=
  mkError "stale epoch" None (Some (mkStaleEpoch news)) None.
Definition busyErr : Error :=
  mkError "busy" None None (Some (mkServerIsBusy "too many requests")).
Definition otherErr : Error := mkError "key not in region" None None None.

Definition kvWorld (budget : nat) (script : list (KVResponse + error)) : World :=
  mkWorld None cache1 None budget script [].
Definition copWorld (budget : nat) (script : list (CopResponse + error)) : World :=
  mkWorld None cache1 None budget [] script.

Definition kvStart (w : World) : St World KVRequest := mkSt w kvReq [].
Definition copStart (w : World) : St World CopRequest := mkSt w copReq [].

(** A cache that holds one region, and a transport that fails [n] times with
    [err] and then answers [resp]. *)
Definition oneRegion (id : RegionVerID) (peers : list (Peer * string)) (sel : nat)
  : list (RegionVerID * Entry) :=
  [(id, mkEntry peers sel)].

Definition flaky (id : RegionVerID) (peers : list (Peer * string)) (sel budget n : nat)
  (err : error) (resp : KVResponse) : World :=
  mkWorld None (oneRegion id peers sel) None budget
    (repeat (inr err) n ++ [inl resp]) [].

End Scripted.

(** ** Passes that go round again *)

(** The state reached after [n] passes of a loop body that all ended in
    [continue]; nothing when one of them returned. *)
Fixpoint retried {W Req A} (body : M W Req (Step A)) (n : nat) (s : St W Req)
  : option (St W Req) :=
  match n with
  | O => Some s
  | S n' =>
      match body s with
      | (Continue, s1) => retried body n' s1
      | (Return _, _) => None
      end
  end.

(** The field of a region error that [onRegionError] acts on: the first one
    present in the order Not-Leader, Stale-Epoch, Server-Busy; the later
    ones are cleared. *)
Definition first_field (e : Error) : Error :=
  match err_NotLeader e, err_StaleEpoch e with
  | Some _, _ => mkError (err_Message e) (err_NotLeader e) None None
  | None, Some _ => mkError (err_Message e) None (err_StaleEpoch e) None
  | None, None => e
  end.

(** The same collaborators behind another cancellation signal. *)
Definition withCtxErr {W} (C : Collaborators W) (f : W -> option error)
  : Collaborators W :=
  {| ctx_Err := f;
     GetRegionByVerID := @GetRegionByVerID W C;
     NextPeer := @NextPeer W C;
     UpdateLeader := @UpdateLeader W C;
     DropRegion := @DropRegion W C;
     OnRegionStale := @OnRegionStale W C;
     Backoff := @Backoff W C;
     client_SendKVReq := @client_SendKVReq W C;
     client_SendCopReq := @client_SendCopReq W C |}.

(** ** A scripted world with a deadline *)

Module Timed.

(** A scripted world and the number of blocking calls (a transport call or a
    backoff wait) left before the context's deadline passes. *)
Definition World := (nat * Scripted.World)%type.

Definition ctxErr (w : World) : option error :=
  match fst w with
  | O => Some (ErrOpaque "context deadline exceeded")
  | S _ => Scripted.w_ctxErr (snd w)
  end.

Definition tick {A} (n : nat) (r : Scripted.World * A) : World * A :=
  ((Nat.pred n, fst r), snd r).

#[global] Instance timed : Collaborators World := {
  ctx_Err := ctxErr;
  GetRegionByVerID := fun w id => Scripted.getRegion (snd w) id;
  NextPeer := fun w id => (fst w, Scripted.nextPeer (snd w) id);
  UpdateLeader := fun w id leader => (fst w, Scripted.updateLeader (snd w) id leader);
  DropRegion := fun w id => (fst w, Scripted.dropRegion (snd w) id);
  OnRegionStale := fun w r news =>
    let (w', e) := Scripted.onRegionStale (snd w) r news in ((fst w, w'), e);
  Backoff := fun w typ detail => tick (fst w) (Scripted.backoff (snd w) typ detail);
  client_SendKVReq := fun w addr req timeout =>
    tick (fst w) (Scripted.sendKV (snd w) addr req timeout);
  client_SendCopReq := fun w addr req timeout =>
    tick (fst w) (Scripted.sendCop (snd w) addr req timeout)
}.

End Timed.

(** ** A world that never settles *)

Module Stubborn.

(** A server that answers every request with Not-Leader and names the same
    leader each time, behind a cache that keeps resolving the region and a
    context that never fires. *)
Definition region0 : Region :=
  mkRegion (mkRegionVerID 1 3) (mkContext 1 3 101) "store1:20160".

Definition answer : Error :=
  mkError "not leader" (Some (mkNotLeader 1 (Some (mkPeer 102 2)))) None None.

#[global] Instance stubborn : Collaborators unit := {
  ctx_Err := fun _ => None;
  GetRegionByVerID := fun _ _ => Some region0;
  NextPeer := fun w _ => w;
  UpdateLeader := fun w _ _ => w;
  DropRegion := fun w _ => w;
  OnRegionStale := fun w _ _ => (w, None);
  Backoff := fun w _ _ => (w, None);
  client_SendKVReq := fun w _ req _ =>
    (w, inl (mkKVResponse (kvreq_Type req) (Some answer) ""));
  client_SendCopReq := fun w _ _ _ => (w, inl (mkCopResponse (Some answer) ""))
}.

End Stubborn.

(** ** The loop *)

Section LoopFacts.

Context {W Req A : Type} (body : M W Req (Step A)).

Lemma loop_return fuel s a s' :
  body s = (Return a, s') -> loop body (S fuel) s = Some (a, s').
Proof. intros Hb. simpl. rewrite Hb. reflexivity. Qed.

Lemma loop_continue fuel s s' :
  body s = (Continue, s') -> loop body (S fuel) s = loop body fuel s'.
Proof. intros Hb. simpl. rewrite Hb. reflexivity. Qed.

(** More fuel never changes a result already reached. *)
Lemma loop_more_fuel fuel : forall s r fuel',
  loop body fuel s = Some r -> (fuel <= fuel')%nat -> loop body fuel' s = Some r.
Proof.
  induction fuel as [|n IH]; intros s r fuel' Hl Hle; [discriminate|].
  destruct fuel' as [|m]; [lia|].
  simpl in *. destruct (body s) as [[|a] s1]; [|exact Hl].
  apply IH; [exact Hl | lia].
Qed.

Lemma loop_deterministic fuel1 fuel2 s r1 r2 :
  loop body fuel1 s = Some r1 -> loop body fuel2 s = Some r2 -> r1 = r2.
Proof.
  intros H1 H2.
  destruct (Nat.le_ge_cases fuel1 fuel2) as [Hle|Hle].
  - rewrite (loop_more_fuel _ _ _ _ H1 Hle) in H2. congruence.
  - rewrite (loop_more_fuel _ _ _ _ H2 Hle) in H1. congruence.
Qed.

(** A property of every returning pass, under an invariant kept by every
    continuing pass, is a property of the loop's result. *)
Lemma loop_result (I : St W Req -> Prop) (P : A -> Prop) :
  (forall s a s', I s -> body s = (Return a, s') -> P a) ->
  (forall s s', I s -> body s = (Continue, s') -> I s') ->
  forall fuel s a s', I s -> loop body fuel s = Some (a, s') -> P a.
Proof.
  intros Hr Hc. induction fuel as [|n IH]; intros s a s' Hi Hl; [discriminate|].
  simpl in Hl. destruct (body s) as [[|a1] s1] eqn:E.
  - eapply IH; [eapply Hc|]; eassumption.
  - inversion Hl; subst. eapply Hr; eassumption.
Qed.

End LoopFacts.

(** ** One pass, case by case *)

Ltac unfold_sender :=
  unfold SendKVReq_body, SendCopReq_body, sendKVReqToRegion, sendCopReqToRegion,
    onSendFail, onRegionError, kvReturn, ctxDone, cache_GetRegionByVerID,
    cache_NextPeer, cache_UpdateLeader, cache_DropRegion, cache_OnRegionStale,
    bo_Backoff, reportRegionError, emit, observe, perform, getReq, putReq,
    bind, ret, kvDispatched, copDispatched, logged in *.

Ltac norm_log := repeat rewrite <- app_assoc; simpl.

Section Passes.

Context {W : Type} `{Collaborators W}.

(** *** Region-error recovery *)

Section Recovery.

Context {Req : Type}.
Variables (region : Region) (e : Error) (s : St W Req).

Lemma onRegionError_NotLeader_leader nl p :
  err_NotLeader e = Some nl -> nl_Leader nl = Some p ->
  onRegionError region e s =
    ((true, None),
     logged s (UpdateLeader (st_world s) (region_VerID region) (peer_Id p))
       [EvReportRegionError e; EvUpdateLeader (region_VerID region) (peer_Id p)]).
Proof.
  intros Hnl Hp. unfold_sender. unfold GetLeader. simpl.
  rewrite Hnl. simpl. rewrite Hp. simpl. norm_log. reflexivity.
Qed.

Lemma onRegionError_NotLeader_unknown nl w2 r :
  err_NotLeader e = Some nl -> nl_Leader nl = None ->
  Backoff (UpdateLeader (st_world s) (region_VerID region) 0) boRegionMiss
    (ErrNotLeader nl (region_Context region)) = (w2, r) ->
  onRegionError region e s =
    (match r with Some b => (false, Some (Traced b)) | None => (true, None) end,
     logged s w2
       [EvReportRegionError e; EvUpdateLeader (region_VerID region) 0;
        EvBackoff boRegionMiss (ErrNotLeader nl (region_Context region))]).
Proof.
  intros Hnl Hp Hb. unfold_sender. unfold GetLeader. simpl.
  rewrite Hnl. simpl. rewrite Hp. simpl. rewrite Hb. norm_log.
  destruct r; reflexivity.
Qed.

Lemma onRegionError_StaleEpoch se w2 r :
  err_NotLeader e = None -> err_StaleEpoch e = Some se ->
  OnRegionStale (st_world s) region (se_NewRegions se) = (w2, r) ->
  onRegionError region e s =
    ((false, Trace r),
     logged s w2 [EvReportRegionError e; EvOnRegionStale region (se_NewRegions se)]).
Proof.
  intros Hnl Hse Hc. unfold_sender. simpl.
  rewrite Hnl, Hse. simpl. rewrite Hc. norm_log. reflexivity.
Qed.

Lemma onRegionError_ServerIsBusy b w2 r :
  err_NotLeader e = None -> err_StaleEpoch e = None -> err_ServerIsBusy e = Some b ->
  Backoff (st_world s) boServerBusy ErrServerBusy = (w2, r) ->
  onRegionError region e s =
    (match r with Some b => (false, Some (Traced b)) | None => (true, None) end,
     logged s w2 [EvReportRegionError e; EvBackoff boServerBusy ErrServerBusy]).
Proof.
  intros Hnl Hse Hb Hc. unfold_sender. simpl.
  rewrite Hnl, Hse, Hb. simpl. rewrite Hc. norm_log. destruct r; reflexivity.
Qed.

Lemma onRegionError_Other :
  err_NotLeader e = None -> err_StaleEpoch e = None -> err_ServerIsBusy e = None ->
  onRegionError region e s =
    ((true, None),
     logged s (DropRegion (st_world s) (region_VerID region))
       [EvReportRegionError e; EvDropRegion (region_VerID region)]).
Proof.
  intros Hnl Hse Hb. unfold_sender. simpl.
  rewrite Hnl, Hse, Hb. simpl. norm_log. reflexivity.
Qed.

(** Whatever the error, recovery only appends to the log, keeps the request,
    and the first thing it appends after the metric is a cache mutation or a
    backoff charge. *)
Lemma onRegionError_shape :
  exists w2 ev evs,
    snd (onRegionError region e s) =
      logged s w2 (EvReportRegionError e :: ev :: evs) /\
    is_recovery ev = true.
Proof.
  destruct (err_NotLeader e) as [nl|] eqn:Hnl.
  - destruct (nl_Leader nl) as [p|] eqn:Hp.
    + rewrite (onRegionError_NotLeader_leader _ _ Hnl Hp). simpl.
      eexists _, _, _. split; reflexivity.
    + destruct (Backoff (UpdateLeader (st_world s) (region_VerID region) 0)
                  boRegionMiss (ErrNotLeader nl (region_Context region)))
        as [w2 r] eqn:Hb.
      rewrite (onRegionError_NotLeader_unknown _ _ _ Hnl Hp Hb). simpl.
      eexists _, _, _. split; reflexivity.
  - destruct (err_StaleEpoch e) as [se|] eqn:Hse.
    + destruct (OnRegionStale (st_world s) region (se_NewRegions se))
        as [w2 r] eqn:Hc.
      rewrite (onRegionError_StaleEpoch _ _ _ Hnl Hse Hc). simpl.
      eexists _, _, _. split; reflexivity.
    + destruct (err_ServerIsBusy e) as [b|] eqn:Hb.
      * destruct (Backoff (st_world s) boServerBusy ErrServerBusy) as [w2 r] eqn:Hc.
        rewrite (onRegionError_ServerIsBusy _ _ _ Hnl Hse Hb Hc). simpl.
        eexists _, _, _. split; reflexivity.
      * rewrite (onRegionError_Other Hnl Hse Hb). simpl.
        eexists _, _, _. split; reflexivity.
Qed.

(** Recovery asks for a retry or reports an error, never both; and it lets a
    response through to the caller only for a stale epoch. *)
Lemma onRegionError_result :
  match fst (onRegionError region e s) with
  | (true, Some _) => False
  | (true, None) => variant e <> VStaleEpoch
  | (false, Some _) => True
  | (false, None) => variant e = VStaleEpoch
  end.
Proof.
  unfold variant.
  destruct (err_NotLeader e) as [nl|] eqn:Hnl.
  - destruct (nl_Leader nl) as [p|] eqn:Hp.
    + rewrite (onRegionError_NotLeader_leader _ _ Hnl Hp). simpl. discriminate.
    + destruct (Backoff (UpdateLeader (st_world s) (region_VerID region) 0)
                  boRegionMiss (ErrNotLeader nl (region_Context region)))
        as [w2 r] eqn:Hb.
      rewrite (onRegionError_NotLeader_unknown _ _ _ Hnl Hp Hb).
      destruct r; simpl; [exact I | discriminate].
  - destruct (err_StaleEpoch e) as [se|] eqn:Hse.
    + destruct (OnRegionStale (st_world s) region (se_NewRegions se))
        as [w2 r] eqn:Hc.
      rewrite (onRegionError_StaleEpoch _ _ _ Hnl Hse Hc).
      destruct r; simpl; [exact I | reflexivity].
    + destruct (err_ServerIsBusy e) as [b|] eqn:Hb.
      * destruct (Backoff (st_world s) boServerBusy ErrServerBusy) as [w2 r] eqn:Hc.
        rewrite (onRegionError_ServerIsBusy _ _ _ Hnl Hse Hb Hc).
        destruct r; simpl; [exact I | discriminate].
      * rewrite (onRegionError_Other Hnl Hse Hb). simpl. discriminate.
Qed.

End Recovery.

End Passes.

(** *** A pass of [SendKVReq] *)

Section KVPass.

Context {W : Type} `{Collaborators W}.
Variables (id : RegionVerID) (timeout : Duration) (s : St W KVRequest).

Lemma kvReturn_eq (resp : option KVResponse) (s1 : St W KVRequest) :
  kvReturn resp s1 =
    (Return (if MessageType_eqb (KVResponse_GetType resp) (kvreq_Type (st_req s1))
             then (resp, None)
             else (None, Some (Traced (errMismatch resp (st_req s1))))),
     s1).
Proof.
  unfold_sender.
  destruct (MessageType_eqb (KVResponse_GetType resp) (kvreq_Type (st_req s1)));
    reflexivity.
Qed.

Lemma kv_pass_cancelled c :
  ctx_Err (st_world s) = Some c ->
  SendKVReq_body id timeout s =
    (Return (None, Some (Traced c)), logged s (st_world s) [EvCtxDone]).
Proof. intros Hc. unfold_sender. simpl. rewrite Hc. reflexivity. Qed.

Lemma kv_pass_unknown :
  ctx_Err (st_world s) = None ->
  GetRegionByVerID (st_world s) id = None ->
  SendKVReq_body id timeout s =
    (Return
       (Some (mkKVResponse (kvreq_Type (st_req s))
                (Some (mkError "" None (Some (mkStaleEpoch [])) None)) ""),
        None),
     logged s (st_world s) [EvCtxDone; EvGetRegionByVerID id]).
Proof.
  intros Hc Hr. unfold_sender. simpl. rewrite Hc. simpl. rewrite Hr.
  norm_log. reflexivity.
Qed.

Variables (region : Region) (w1 : W).

Hypothesis Hctx : ctx_Err (st_world s) = None.
Hypothesis Hregion : GetRegionByVerID (st_world s) id = Some region.

Lemma kv_pass_send_fail err w2 r :
  client_SendKVReq (st_world s) (region_Address region)
    (KVRequest_setContext (st_req s) (region_Context region)) timeout
    = (w1, inr err) ->
  Backoff (NextPeer w1 (region_VerID region)) boTiKVRPC
    (ErrSendFail err (region_Context region)) = (w2, r) ->
  SendKVReq_body id timeout s =
    (match r with
     | Some b => Return (None, Some (Traced (Traced (Traced b))))
     | None => Continue
     end,
     logged (kvDispatched s id region timeout w1) w2
       [EvNextPeer (region_VerID region);
        EvBackoff boTiKVRPC (ErrSendFail err (region_Context region))]).
Proof.
  intros Hs Hb. unfold_sender. simpl. rewrite Hctx. simpl. rewrite Hregion.
  simpl. rewrite Hs. simpl. rewrite Hb. norm_log. destruct r; reflexivity.
Qed.

Lemma kv_pass_response resp :
  client_SendKVReq (st_world s) (region_Address region)
    (KVRequest_setContext (st_req s) (region_Context region)) timeout
    = (w1, inl resp) ->
  SendKVReq_body id timeout s =
    match kvresp_RegionError resp with
    | None => kvReturn (Some resp) (kvDispatched s id region timeout w1)
    | Some e =>
        match onRegionError region e (kvDispatched s id region timeout w1) with
        | ((_, Some err), s2) => (Return (None, Some (Traced err)), s2)
        | ((true, None), s2) => (Continue, s2)
        | ((false, None), s2) => kvReturn (Some resp) s2
        end
    end.
Proof.
  intros Hs.
  unfold SendKVReq_body, sendKVReqToRegion, ctxDone, cache_GetRegionByVerID,
    emit, observe, perform, getReq, putReq, bind, ret, kvDispatched.
  simpl. rewrite Hctx. simpl. rewrite Hregion. simpl. rewrite Hs. simpl.
  norm_log.
  destruct (kvresp_RegionError resp) as [e|]; [|reflexivity].
  match goal with |- context [onRegionError region e ?s1] =>
    destruct (onRegionError region e s1) as [[[|] [err|]] s2] end;
    reflexivity.
Qed.

End KVPass.

(** *** A pass of [SendCopReq] *)

Section CopPass.

Context {W : Type} `{Collaborators W}.
Variables (id : RegionVerID) (timeout : Duration) (s : St W CopRequest).

Lemma cop_pass_unknown :
  GetRegionByVerID (st_world s) id = None ->
  SendCopReq_body id timeout s =
    (Return
       (Some (mkCopResponse (Some (mkError "" None (Some (mkStaleEpoch [])) None)) ""),
        None),
     logged s (st_world s) [EvGetRegionByVerID id]).
Proof. intros Hr. unfold_sender. simpl. rewrite Hr. reflexivity. Qed.

Variables (region : Region) (w1 : W).

Hypothesis Hregion : GetRegionByVerID (st_world s) id = Some region.

Lemma cop_pass_send_fail err w2 r :
  client_SendCopReq (st_world s) (region_Address region)
    (CopRequest_setContext (st_req s) (region_Context region)) timeout
    = (w1, inr err) ->
  Backoff (NextPeer w1 (region_VerID region)) boTiKVRPC
    (ErrSendFail err (region_Context region)) = (w2, r) ->
  SendCopReq_body id timeout s =
    (match r with
     | Some _ => Return (None, Some (Traced (Traced err)))
     | None => Continue
     end,
     logged (copDispatched s id region timeout w1) w2
       [EvNextPeer (region_VerID region);
        EvBackoff boTiKVRPC (ErrSendFail err (region_Context region))]).
Proof.
  intros Hs Hb. unfold_sender. simpl. rewrite Hregion.
  simpl. rewrite Hs. simpl. rewrite Hb. norm_log. destruct r; reflexivity.
Qed.

Lemma cop_pass_response resp :
  client_SendCopReq (st_world s) (region_Address region)
    (CopRequest_setContext (st_req s) (region_Context region)) timeout
    = (w1, inl resp) ->
  SendCopReq_body id timeout s =
    match copresp_RegionError resp with
    | None => (Return (Some resp, None), copDispatched s id region timeout w1)
    | Some e =>
        match onRegionError region e (copDispatched s id region timeout w1) with
        | ((_, Some err), s2) => (Return (None, Some (Traced err)), s2)
        | ((true, None), s2) => (Continue, s2)
        | ((false, None), s2) => (Return (Some resp, None), s2)
        end
    end.
Proof.
  intros Hs.
  unfold SendCopReq_body, sendCopReqToRegion, cache_GetRegionByVerID,
    emit, observe, perform, getReq, putReq, bind, ret, copDispatched.
  simpl. rewrite Hregion. simpl. rewrite Hs. simpl.
  norm_log.
  destruct (copresp_RegionError resp) as [e|]; [|reflexivity].
  match goal with |- context [onRegionError region e ?s1] =>
    destruct (onRegionError region e s1) as [[[|] [err|]] s2] end;
    reflexivity.
Qed.

End CopPass.

(** *** Recoveries that end in a retry *)

Section Retries.

Context {W : Type} `{Collaborators W}.

(** When region-error recovery asks for a retry, it has made one of the
    recoveries, with success, and the world is the one that recovery left. *)
Lemma onRegionError_retry {Req} (region : Region) (e : Error) (s : St W Req) s2 :
  onRegionError region e s = ((true, None), s2) ->
  exists evs,
    Recovered region (st_world s) (inl e) evs (st_world s2) /\
    s2 = logged s (st_world s2) evs.
Proof.
  intros Hre.
  destruct (err_NotLeader e) as [nl|] eqn:Hnl.
  - destruct (nl_Leader nl) as [p|] eqn:Hp.
    + rewrite (onRegionError_NotLeader_leader region e s nl p Hnl Hp) in Hre.
      inversion Hre; subst s2. eexists. split; [|reflexivity].
      simpl. eapply Recovered_leader; eassumption.
    + destruct (Backoff (UpdateLeader (st_world s) (region_VerID region) 0)
                  boRegionMiss (ErrNotLeader nl (region_Context region)))
        as [w2 r] eqn:Hb.
      rewrite (onRegionError_NotLeader_unknown region e s nl w2 r Hnl Hp Hb) in Hre.
      destruct r; inversion Hre; subst s2. eexists. split; [|reflexivity].
      simpl. eapply Recovered_no_leader; eassumption.
  - destruct (err_StaleEpoch e) as [se|] eqn:Hse.
    + destruct (OnRegionStale (st_world s) region (se_NewRegions se))
        as [w2 r] eqn:Hc.
      rewrite (onRegionError_StaleEpoch region e s se w2 r Hnl Hse Hc) in Hre.
      discriminate.
    + destruct (err_ServerIsBusy e) as [b|] eqn:Hb.
      * destruct (Backoff (st_world s) boServerBusy ErrServerBusy) as [w2 r] eqn:Hc.
        rewrite (onRegionError_ServerIsBusy region e s b w2 r Hnl Hse Hb Hc) in Hre.
        destruct r; inversion Hre; subst s2. eexists. split; [|reflexivity].
        simpl. eapply Recovered_busy; eassumption.
      * rewrite (onRegionError_Other region e s Hnl Hse Hb) in Hre.
        inversion Hre; subst s2. eexists. split; [|reflexivity].
        simpl. apply Recovered_drop; assumption.
Qed.

(** Every recovery holds a cache mutation or a backoff charge. *)
Lemma Recovered_is_recovery (region : Region) (w1 w2 : W) t evs :
  Recovered region w1 t evs w2 -> existsb is_recovery evs = true.
Proof. intros Hr. destruct Hr; reflexivity. Qed.

End Retries.

(** ** What a pass can hand back *)

Section Summary.

Context {W : Type} `{Collaborators W}.
Variables (id : RegionVerID) (timeout : Duration).

(** A pass of [SendKVReq] keeps the request's kind tag; what it returns is
    well formed, a returned Response has the request's tag, and the only
    Region Error it can carry is Stale-Epoch. *)
Lemma kv_pass_summary (s : St W KVRequest) :
  kvreq_Type (st_req (snd (SendKVReq_body id timeout s))) = kvreq_Type (st_req s) /\
  match fst (SendKVReq_body id timeout s) with
  | Continue => True
  | Return out =>
      well_formed kvresp_RegionError (fun v => v = VStaleEpoch) out /\
      forall r, fst out = Some r -> kvresp_Type r = kvreq_Type (st_req s)
  end.
Proof.
  destruct (ctx_Err (st_world s)) as [c|] eqn:Hctx.
  { rewrite (kv_pass_cancelled id timeout s c Hctx). simpl.
    repeat split. discriminate. }
  destruct (GetRegionByVerID (st_world s) id) as [region|] eqn:Hreg.
  2:{ rewrite (kv_pass_unknown id timeout s Hctx Hreg). simpl.
      repeat split.
      - intros e He. inversion He; subst. reflexivity.
      - intros r Hr. inversion Hr; subst. reflexivity. }
  destruct (client_SendKVReq (st_world s) (region_Address region)
              (KVRequest_setContext (st_req s) (region_Context region)) timeout)
    as [w1 [resp|err]] eqn:Hs.
  - rewrite (kv_pass_response id timeout s region w1 Hctx Hreg resp Hs).
    assert (Hret : forall s2 : St W KVRequest,
               kvreq_Type (st_req s2) = kvreq_Type (st_req s) ->
               (forall e, kvresp_RegionError resp = Some e -> variant e = VStaleEpoch) ->
               kvreq_Type (st_req (snd (kvReturn (Some resp) s2))) = kvreq_Type (st_req s) /\
               match fst (kvReturn (Some resp) s2) with
               | Continue => True
               | Return out =>
                   well_formed kvresp_RegionError (fun v => v = VStaleEpoch) out /\
                   forall r, fst out = Some r -> kvresp_Type r = kvreq_Type (st_req s)
               end).
    { intros s2 Hty Hvar. rewrite kvReturn_eq. simpl. split; [exact Hty|].
      unfold MessageType_eqb. rewrite Hty.
      destruct (Z.eqb_spec (kvresp_Type resp) (kvreq_Type (st_req s))) as [Heq|Hne];
        simpl.
      - split; [exact Hvar|]. intros r Hr. inversion Hr; subst. exact Heq.
      - split; [exact I|]. discriminate. }
    destruct (kvresp_RegionError resp) as [e|] eqn:He.
    2:{ apply Hret; [reflexivity | discriminate]. }
    pose proof (onRegionError_shape region e (kvDispatched s id region timeout w1))
      as (w2 & ev & evs & Hshape & _).
    pose proof (onRegionError_result region e (kvDispatched s id region timeout w1))
      as Hres.
    destruct (onRegionError region e (kvDispatched s id region timeout w1))
      as [[[|] [err|]] s2]; simpl in Hshape, Hres; subst s2; simpl.
    + contradiction.
    + split; [reflexivity | exact I].
    + repeat split. discriminate.
    + apply Hret; [reflexivity|]. intros e' He'. inversion He'; subst. exact Hres.
  - destruct (Backoff (NextPeer w1 (region_VerID region)) boTiKVRPC
                (ErrSendFail err (region_Context region))) as [w2 r] eqn:Hb.
    rewrite (kv_pass_send_fail id timeout s region w1 Hctx Hreg err w2 r Hs Hb).
    destruct r; simpl; repeat split. discriminate.
Qed.

(** A pass of [SendCopReq] returns a well-formed outcome, and the only Region
    Error a returned Response can carry is Stale-Epoch. *)
Lemma cop_pass_summary (s : St W CopRequest) :
  match fst (SendCopReq_body id timeout s) with
  | Continue => True
  | Return out => well_formed copresp_RegionError (fun v => v = VStaleEpoch) out
  end.
Proof.
  destruct (GetRegionByVerID (st_world s) id) as [region|] eqn:Hreg.
  2:{ rewrite (cop_pass_unknown id timeout s Hreg). simpl.
      intros e He. inversion He; subst. reflexivity. }
  destruct (client_SendCopReq (st_world s) (region_Address region)
              (CopRequest_setContext (st_req s) (region_Context region)) timeout)
    as [w1 [resp|err]] eqn:Hs.
  - rewrite (cop_pass_response id timeout s region w1 Hreg resp Hs).
    destruct (copresp_RegionError resp) as [e|] eqn:He.
    2:{ simpl. intros e He'. congruence. }
    pose proof (onRegionError_result region e (copDispatched s id region timeout w1))
      as Hres.
    destruct (onRegionError region e (copDispatched s id region timeout w1))
      as [[[|] [err|]] s2]; simpl in Hres; simpl; try exact I.
    intros e' He'. rewrite He in He'. inversion He'; subst. exact Hres.
  - destruct (Backoff (NextPeer w1 (region_VerID region)) boTiKVRPC
                (ErrSendFail err (region_Context region))) as [w2 r] eqn:Hb.
    rewrite (cop_pass_send_fail id timeout s region w1 Hreg err w2 r Hs Hb).
    destruct r; exact I.
Qed.

End Summary.

Lemma well_formed_weaken {Resp} (regionError : Resp -> option Error)
  (ok ok' : Variant -> Prop) (out : Outcome Resp) :
  (forall v, ok v -> ok' v) ->
  well_formed regionError ok out -> well_formed regionError ok' out.
Proof.
  intros Himp. destruct out as [[r|] [err|]]; simpl; auto.
Qed.

(** ** The loop need not end *)

(** Against the stubborn server neither entry point ever returns: every pass
    updates the leader and goes round again, with no backoff charge to run
    out. *)
Lemma stubborn_never_returns (id : RegionVerID) (timeout : Duration) (fuel : nat) :
  (forall s : St unit KVRequest, SendKVReq fuel id timeout s = None)
  /\ (forall s : St unit CopRequest, SendCopReq fuel id timeout s = None).
Proof.
  induction fuel as [|n [IHk IHc]]; split; intros s; try reflexivity.
  - unfold SendKVReq. erewrite loop_continue; [apply IHk|].
    destruct s as [[] req lg]. reflexivity.
  - unfold SendCopReq. erewrite loop_continue; [apply IHc|].
    destruct s as [[] req lg]. reflexivity.
Qed.

(** ** The claims *)

(** C1: a Response whose Region Error is of the Other variant.  The pass
    drops the region and charges no backoff, but it asks for a retry: the
    next pass finds the region gone and Send returns the placeholder
    Stale-Epoch Response, not the Response the server sent. *)
Theorem C1_other_error_is_retried :
  let sent := mkKVResponse 1 (Some Scripted.otherErr) "served" in
  let sentCop := mkCopResponse (Some Scripted.otherErr) "served" in
  let sk := Scripted.kvStart (Scripted.kvWorld 3 [inl sent]) in
  let sc := Scripted.copStart (Scripted.copWorld 3 [inl sentCop]) in
  let stamped := KVRequest_setContext Scripted.kvReq (mkContext 1 3 101) in
  variant Scripted.otherErr = VOther
  /\ fst (SendKVReq_body Scripted.R1 10 sk) = Continue
  /\ SendKVReq 2 Scripted.R1 10 sk =
       Some ((Some (mkKVResponse 1 (Some staleEpochNoSuccessors) ""), None),
             mkSt (Scripted.mkWorld None [] None 3 [] []) stamped
               [EvCtxDone; EvGetRegionByVerID Scripted.R1;
                EvSendKVReq "store1:20160" stamped 10;
                EvReportRegionError Scripted.otherErr;
                EvDropRegion Scripted.R1;
                EvCtxDone; EvGetRegionByVerID Scripted.R1])
  /\ fst (SendCopReq_body Scripted.R1 10 sc) = Continue
  /\ option_map fst (SendCopReq 2 Scripted.R1 10 sc) =
       Some (Some (mkCopResponse (Some staleEpochNoSuccessors) ""), None).
Proof.
  intros sent sentCop sk sc stamped.
  split; [reflexivity|]. split; [reflexivity|]. split; [reflexivity|].
  split; reflexivity.
Qed.

(** C2: [SendCopReq] makes no context check.  With the context already
    cancelled, a coprocessor call dispatches the request and returns the
    server's Response with no error; the KV call in the same world returns
    the context's error without a dispatch. *)
Theorem C2_cop_ignores_cancellation :
  let w := Scripted.mkWorld (Some (ErrOpaque "context canceled")) Scripted.cache1
             None 0 [inl Scripted.okKV] [inl Scripted.okCop] in
  let stamped := CopRequest_setContext Scripted.copReq (mkContext 1 3 101) in
  ctx_Err w = Some (ErrOpaque "context canceled")
  /\ option_map fst (SendCopReq 1 Scripted.R1 10 (Scripted.copStart w)) =
       Some (Some Scripted.okCop, None)
  /\ option_map (fun r => st_log (snd r))
       (SendCopReq 1 Scripted.R1 10 (Scripted.copStart w)) =
       Some [EvGetRegionByVerID Scripted.R1; EvSendCopReq "store1:20160" stamped 10]
  /\ SendKVReq 1 Scripted.R1 10 (Scripted.kvStart w) =
       Some ((None, Some (Traced (ErrOpaque "context canceled"))),
             mkSt w Scripted.kvReq [EvCtxDone]).
Proof.
  intros w stamped.
  split; [reflexivity|]. split; [reflexivity|]. split; reflexivity.
Qed.

(** C3: the transport call fails with a timeout and the backoffer, its budget
    spent, refuses the charge.  Both helpers advance the peer and then charge
    the RPC-error budget; [SendKVReq] returns the backoffer's error, while
    [SendCopReq] returns the transport's. *)
Theorem C3_cop_returns_transport_error :
  let timeout_err := ErrOpaque "timeout" in
  let exhausted := ErrOpaque "backoffer.maxSleep is exceeded" in
  let sk := Scripted.kvStart (Scripted.kvWorld 0 [inr timeout_err]) in
  let sc := Scripted.copStart (Scripted.copWorld 0 [inr timeout_err]) in
  let detail := ErrSendFail timeout_err (mkContext 1 3 101) in
  snd (Backoff (NextPeer (Scripted.copWorld 0 []) Scripted.R1) boTiKVRPC detail)
    = Some exhausted
  /\ option_map fst (SendCopReq 1 Scripted.R1 10 sc) =
       Some (None, Some (Traced (Traced timeout_err)))
  /\ option_map (fun r => skipn 2 (st_log (snd r))) (SendCopReq 1 Scripted.R1 10 sc) =
       Some [EvNextPeer Scripted.R1; EvBackoff boTiKVRPC detail]
  /\ Cause (Traced (Traced timeout_err)) <> exhausted
  /\ option_map fst (SendKVReq 1 Scripted.R1 10 sk) =
       Some (None, Some (Traced (Traced (Traced exhausted))))
  /\ option_map (fun r => skipn 3 (st_log (snd r))) (SendKVReq 1 Scripted.R1 10 sk) =
       Some [EvNextPeer Scripted.R1; EvBackoff boTiKVRPC detail].
Proof.
  intros timeout_err exhausted sk sc detail.
  split; [reflexivity|]. split; [reflexivity|]. split; [reflexivity|].
  split; [simpl; discriminate|]. split; reflexivity.
Qed.

(** C4, as the code has it: a call that returns hands back exactly one of a
    Response and an error, never both and never neither, and the same one
    however many passes it is allowed; the Response is final in that its
    Region Error, if it carries one, is neither Not-Leader nor Server-Busy
    (it can be Stale-Epoch, which the sender hands to the caller). *)
Theorem C4_one_well_formed_outcome {W} `{Collaborators W}
  (id : RegionVerID) (timeout : Duration) :
  (forall fuel (s : St W KVRequest) out s',
      SendKVReq fuel id timeout s = Some (out, s') ->
      well_formed kvresp_RegionError
        (fun v => v <> VNotLeader /\ v <> VServerIsBusy) out /\
      forall fuel' r', SendKVReq fuel' id timeout s = Some r' -> r' = (out, s'))
  /\
  (forall fuel (s : St W CopRequest) out s',
      SendCopReq fuel id timeout s = Some (out, s') ->
      well_formed copresp_RegionError
        (fun v => v <> VNotLeader /\ v <> VServerIsBusy) out /\
      forall fuel' r', SendCopReq fuel' id timeout s = Some r' -> r' = (out, s')).
Proof.
  assert (Hok : forall v, v = VStaleEpoch -> v <> VNotLeader /\ v <> VServerIsBusy).
  { intros v ->. split; discriminate. }
  split; intros fuel s out s' Hsend; split.
  - eapply well_formed_weaken; [exact Hok|].
    revert Hsend. unfold SendKVReq.
    apply (loop_result (SendKVReq_body id timeout) (fun _ => True)
             (well_formed kvresp_RegionError (fun v => v = VStaleEpoch)));
      [| trivial | exact I].
    intros s0 a s0' _ Hb.
    pose proof (kv_pass_summary id timeout s0) as [_ Hsum].
    rewrite Hb in Hsum. simpl in Hsum. apply Hsum.
  - intros fuel' r' Hsend'. symmetry.
    eapply loop_deterministic; eassumption.
  - eapply well_formed_weaken; [exact Hok|].
    revert Hsend. unfold SendCopReq.
    apply (loop_result (SendCopReq_body id timeout) (fun _ => True)
             (well_formed copresp_RegionError (fun v => v = VStaleEpoch)));
      [| trivial | exact I].
    intros s0 a s0' _ Hb.
    pose proof (cop_pass_summary id timeout s0) as Hsum.
    rewrite Hb in Hsum. exact Hsum.
  - intros fuel' r' Hsend'. symmetry.
    eapply loop_deterministic; eassumption.
Qed.

(** The end-to-end scenario: p1 answers Not-Leader naming p2, p2 answers; and
    a coprocessor request to a region the cache does not know. *)
Lemma C4_one_outcome_witness :
  let sk := Scripted.kvStart
              (Scripted.kvWorld 0
                 [inl (mkKVResponse 1 (Some (Scripted.notLeaderErr (Some Scripted.p2))) "");
                  inl Scripted.okKV]) in
  let sc := Scripted.copStart (Scripted.copWorld 0 []) in
  (well_formed kvresp_RegionError
     (fun v => v <> VNotLeader /\ v <> VServerIsBusy) (Some Scripted.okKV, None) /\
   forall fuel' r',
     SendKVReq fuel' Scripted.R1 10 sk = Some r' ->
     r' = ((Some Scripted.okKV, None),
           snd (SendKVReq_body Scripted.R1 10 (snd (SendKVReq_body Scripted.R1 10 sk)))))
  /\
  (well_formed copresp_RegionError
     (fun v => v <> VNotLeader /\ v <> VServerIsBusy)
     (Some (mkCopResponse (Some staleEpochNoSuccessors) ""), None) /\
   forall fuel' r',
     SendCopReq fuel' (mkRegionVerID 7 1) 10 sc = Some r' ->
     r' = ((Some (mkCopResponse (Some staleEpochNoSuccessors) ""), None),
           snd (SendCopReq_body (mkRegionVerID 7 1) 10 sc))).
Proof.
  intros sk sc. split.
  - apply (proj1 (C4_one_well_formed_outcome Scripted.R1 10) 2%nat sk).
    reflexivity.
  - apply (proj2 (C4_one_well_formed_outcome (mkRegionVerID 7 1) 10) 1%nat sc).
    reflexivity.
Defined.

(** C4 as stated fails: for a region the cache does not know, the one outcome
    of the call is a Response and no error, and that Response carries an
    unresolved Region Error. *)
Lemma C4_counterexample :
  let out := (Some (mkKVResponse 1 (Some staleEpochNoSuccessors) ""), None) in
  SendKVReq 1 (mkRegionVerID 7 1) 10 (Scripted.kvStart (Scripted.kvWorld 0 [])) =
    Some (out, mkSt (Scripted.kvWorld 0 []) Scripted.kvReq
                 [EvCtxDone; EvGetRegionByVerID (mkRegionVerID 7 1)])
  /\ ~ well_formed kvresp_RegionError (fun _ => False) out.
Proof.
  intros out. split; [reflexivity|].
  simpl. intros Hwf. exact (Hwf _ eq_refl).
Qed.

(** C5: for an identity the cache cannot resolve, Send returns in its first
    pass, with no error and without calling the transport, a synthesized
    Response whose Region Error is Stale-Epoch with an empty successor list;
    the world is left as it was and the log gains only the lookup (after the
    context check, for a KV request whose context has not fired). *)
Theorem C5_unknown_identity_short_circuit {W} `{Collaborators W}
  (id : RegionVerID) (timeout : Duration) (fuel : nat) :
  (forall s : St W KVRequest,
      ctx_Err (st_world s) = None ->
      GetRegionByVerID (st_world s) id = None ->
      SendKVReq (S fuel) id timeout s =
        Some ((Some (mkKVResponse (kvreq_Type (st_req s))
                       (Some staleEpochNoSuccessors) ""), None),
              logged s (st_world s) [EvCtxDone; EvGetRegionByVerID id]))
  /\
  (forall s : St W CopRequest,
      GetRegionByVerID (st_world s) id = None ->
      SendCopReq (S fuel) id timeout s =
        Some ((Some (mkCopResponse (Some staleEpochNoSuccessors) ""), None),
              logged s (st_world s) [EvGetRegionByVerID id])).
Proof.
  split; intros s; intros.
  - apply loop_return. apply kv_pass_unknown; assumption.
  - apply loop_return. apply cop_pass_unknown; assumption.
Qed.

(** The region 7 at epoch 1 is not in the scripted cache. *)
Lemma C5_unknown_identity_witness :
  let id := mkRegionVerID 7 1 in
  SendKVReq 1 id 10 (Scripted.kvStart (Scripted.kvWorld 0 [inl Scripted.okKV])) =
    Some ((Some (mkKVResponse 1 (Some staleEpochNoSuccessors) ""), None),
          mkSt (Scripted.kvWorld 0 [inl Scripted.okKV]) Scripted.kvReq
            [EvCtxDone; EvGetRegionByVerID id])
  /\
  SendCopReq 1 id 10 (Scripted.copStart (Scripted.copWorld 0 [inl Scripted.okCop])) =
    Some ((Some (mkCopResponse (Some staleEpochNoSuccessors) ""), None),
          mkSt (Scripted.copWorld 0 [inl Scripted.okCop]) Scripted.copReq
            [EvGetRegionByVerID id]).
Proof.
  intros id. split.
  - apply (proj1 (C5_unknown_identity_short_circuit id 10 0)); reflexivity.
  - apply (proj2 (C5_unknown_identity_short_circuit id 10 0)); reflexivity.
Defined.

(** C6: a Response carrying a Not-Leader Region Error.  With a reported
    leader the pass logs one leader update, to that leader's id, and no
    backoff charge, and Send goes on with its next pass.  With no leader
    reported the pass logs one leader update (to id 0) and then one
    region-miss charge; Send goes on with its next pass when the charge
    succeeds and returns the charge's failure as its error when it fails. *)
Theorem C6_not_leader_recovery {W} `{Collaborators W}
  (id : RegionVerID) (timeout : Duration) (fuel : nat)
  (region : Region) (w1 : W) (e : Error) (nl : NotLeader) :
  err_NotLeader e = Some nl ->
  (forall (s : St W KVRequest) resp,
      ctx_Err (st_world s) = None ->
      GetRegionByVerID (st_world s) id = Some region ->
      client_SendKVReq (st_world s) (region_Address region)
        (KVRequest_setContext (st_req s) (region_Context region)) timeout
        = (w1, inl resp) ->
      kvresp_RegionError resp = Some e ->
      (forall p, nl_Leader nl = Some p ->
         SendKVReq (S fuel) id timeout s =
           SendKVReq fuel id timeout
             (logged (kvDispatched s id region timeout w1)
                (UpdateLeader w1 (region_VerID region) (peer_Id p))
                [EvReportRegionError e;
                 EvUpdateLeader (region_VerID region) (peer_Id p)]))
      /\
      (forall w2 r, nl_Leader nl = None ->
         Backoff (UpdateLeader w1 (region_VerID region) 0) boRegionMiss
           (ErrNotLeader nl (region_Context region)) = (w2, r) ->
         let s2 := logged (kvDispatched s id region timeout w1) w2
                     [EvReportRegionError e;
                      EvUpdateLeader (region_VerID region) 0;
                      EvBackoff boRegionMiss
                        (ErrNotLeader nl (region_Context region))] in
         SendKVReq (S fuel) id timeout s =
           match r with
           | Some b => Some ((None, Some (Traced (Traced b))), s2)
           | None => SendKVReq fuel id timeout s2
           end))
  /\
  (forall (s : St W CopRequest) resp,
      GetRegionByVerID (st_world s) id = Some region ->
      client_SendCopReq (st_world s) (region_Address region)
        (CopRequest_setContext (st_req s) (region_Context region)) timeout
        = (w1, inl resp) ->
      copresp_RegionError resp = Some e ->
      (forall p, nl_Leader nl = Some p ->
         SendCopReq (S fuel) id timeout s =
           SendCopReq fuel id timeout
             (logged (copDispatched s id region timeout w1)
                (UpdateLeader w1 (region_VerID region) (peer_Id p))
                [EvReportRegionError e;
                 EvUpdateLeader (region_VerID region) (peer_Id p)]))
      /\
      (forall w2 r, nl_Leader nl = None ->
         Backoff (UpdateLeader w1 (region_VerID region) 0) boRegionMiss
           (ErrNotLeader nl (region_Context region)) = (w2, r) ->
         let s2 := logged (copDispatched s id region timeout w1) w2
                     [EvReportRegionError e;
                      EvUpdateLeader (region_VerID region) 0;
                      EvBackoff boRegionMiss
                        (ErrNotLeader nl (region_Context region))] in
         SendCopReq (S fuel) id timeout s =
           match r with
           | Some b => Some ((None, Some (Traced (Traced b))), s2)
           | None => SendCopReq fuel id timeout s2
           end)).
Proof.
  intros Hnl. split; intros s resp; intros; split.
  - intros p Hp. apply loop_continue.
    rewrite (kv_pass_response id timeout s region w1) with (resp := resp)
      by assumption.
    match goal with Hr : kvresp_RegionError resp = Some e |- _ => rewrite Hr end.
    rewrite (onRegionError_NotLeader_leader region e _ nl p Hnl Hp). reflexivity.
  - intros w2 r Hp Hb s2. unfold SendKVReq.
    assert (Hbody : SendKVReq_body id timeout s =
              (match r with
               | Some b => Return (None, Some (Traced (Traced b)))
               | None => Continue
               end, s2)).
    { rewrite (kv_pass_response id timeout s region w1) with (resp := resp)
        by assumption.
      match goal with Hr : kvresp_RegionError resp = Some e |- _ => rewrite Hr end.
      rewrite (onRegionError_NotLeader_unknown region e (kvDispatched s id region timeout w1) nl w2 r Hnl Hp Hb).
      destruct r; reflexivity. }
    destruct r.
    + apply loop_return. exact Hbody.
    + apply loop_continue. exact Hbody.
  - intros p Hp. apply loop_continue.
    rewrite (cop_pass_response id timeout s region w1) with (resp := resp)
      by assumption.
    match goal with Hr : copresp_RegionError resp = Some e |- _ => rewrite Hr end.
    rewrite (onRegionError_NotLeader_leader region e _ nl p Hnl Hp). reflexivity.
  - intros w2 r Hp Hb s2. unfold SendCopReq.
    assert (Hbody : SendCopReq_body id timeout s =
              (match r with
               | Some b => Return (None, Some (Traced (Traced b)))
               | None => Continue
               end, s2)).
    { rewrite (cop_pass_response id timeout s region w1) with (resp := resp)
        by assumption.
      match goal with Hr : copresp_RegionError resp = Some e |- _ => rewrite Hr end.
      rewrite (onRegionError_NotLeader_unknown region e (copDispatched s id region timeout w1) nl w2 r Hnl Hp Hb).
      destruct r; reflexivity. }
    destruct r.
    + apply loop_return. exact Hbody.
    + apply loop_continue. exact Hbody.
Qed.

(** Region 1 at epoch 3 resolves to p1, which answers Not-Leader naming p2:
    the next pass starts with p2 selected.  And a coprocessor request told
    Not-Leader with no leader, under an empty budget, fails with the
    backoffer's error. *)
Lemma C6_not_leader_witness :
  let e1 := Scripted.notLeaderErr (Some Scripted.p2) in
  let e0 := Scripted.notLeaderErr None in
  let region := mkRegion Scripted.R1 (mkContext 1 3 101) "store1:20160" in
  let sk := Scripted.kvStart
              (Scripted.kvWorld 0 [inl (mkKVResponse 1 (Some e1) ""); inl Scripted.okKV]) in
  let sc := Scripted.copStart
              (Scripted.copWorld 0 [inl (mkCopResponse (Some e0) "")]) in
  SendKVReq 2 Scripted.R1 10 sk =
    SendKVReq 1 Scripted.R1 10
      (logged (kvDispatched sk Scripted.R1 region 10 (Scripted.kvWorld 0 [inl Scripted.okKV]))
         (UpdateLeader (Scripted.kvWorld 0 [inl Scripted.okKV]) Scripted.R1 102)
         [EvReportRegionError e1; EvUpdateLeader Scripted.R1 102])
  /\
  SendCopReq 1 Scripted.R1 10 sc =
    Some ((None,
           Some (Traced (Traced (ErrOpaque "backoffer.maxSleep is exceeded")))),
          logged (copDispatched sc Scripted.R1 region 10 (Scripted.copWorld 0 []))
            (Scripted.copWorld 0 [])
            [EvReportRegionError e0; EvUpdateLeader Scripted.R1 0;
             EvBackoff boRegionMiss
               (ErrNotLeader (mkNotLeader 1 None) (mkContext 1 3 101))]).
Proof.
  intros e1 e0 region sk sc. split.
  - refine (proj1 (proj1 (C6_not_leader_recovery Scripted.R1 10 1 region
                           (Scripted.kvWorld 0 [inl Scripted.okKV]) e1
                           (mkNotLeader 1 (Some Scripted.p2)) _)
                    sk (mkKVResponse 1 (Some e1) "")
                    _ _ _ _)
             Scripted.p2 _); reflexivity.
  - refine (proj2 (proj2 (C6_not_leader_recovery Scripted.R1 10 0 region
                           (Scripted.copWorld 0 []) e0
                           (mkNotLeader 1 None) _)
                    sc (mkCopResponse (Some e0) "")
                    _ _ _)
             (Scripted.copWorld 0 [])
             (Some (ErrOpaque "backoffer.maxSleep is exceeded"))
             _ _); reflexivity.
Defined.

(** C7, as the code has it: a Response carrying a Stale-Epoch Region Error
    (the Not-Leader field being absent).  The pass hands the server's
    successor list, whatever its length, to the cache and Send returns in
    that pass.  When the replacement fails Send returns the cache's failure
    as its error.  When it succeeds, [SendCopReq] returns the Response
    itself, Region Error attached; [SendKVReq] does so when the Response has
    the request's kind tag, and returns the protocol-mismatch error when it
    has another. *)
Theorem C7_stale_epoch_returned {W} `{Collaborators W}
  (id : RegionVerID) (timeout : Duration) (fuel : nat)
  (region : Region) (w1 w2 : W) (e : Error) (se : StaleEpoch) (r : option error) :
  err_NotLeader e = None ->
  err_StaleEpoch e = Some se ->
  OnRegionStale w1 region (se_NewRegions se) = (w2, r) ->
  (forall (s : St W KVRequest) resp,
      ctx_Err (st_world s) = None ->
      GetRegionByVerID (st_world s) id = Some region ->
      client_SendKVReq (st_world s) (region_Address region)
        (KVRequest_setContext (st_req s) (region_Context region)) timeout
        = (w1, inl resp) ->
      kvresp_RegionError resp = Some e ->
      SendKVReq (S fuel) id timeout s =
        Some (match r with
              | Some c => (None, Some (Traced (Traced c)))
              | None =>
                  if MessageType_eqb (kvresp_Type resp) (kvreq_Type (st_req s))
                  then (Some resp, None)
                  else (None,
                        Some (Traced (errMismatch (Some resp)
                                        (KVRequest_setContext (st_req s)
                                           (region_Context region)))))
              end,
              logged (kvDispatched s id region timeout w1) w2
                [EvReportRegionError e;
                 EvOnRegionStale region (se_NewRegions se)]))
  /\
  (forall (s : St W CopRequest) resp,
      GetRegionByVerID (st_world s) id = Some region ->
      client_SendCopReq (st_world s) (region_Address region)
        (CopRequest_setContext (st_req s) (region_Context region)) timeout
        = (w1, inl resp) ->
      copresp_RegionError resp = Some e ->
      SendCopReq (S fuel) id timeout s =
        Some (match r with
              | Some c => (None, Some (Traced (Traced c)))
              | None => (Some resp, None)
              end,
              logged (copDispatched s id region timeout w1) w2
                [EvReportRegionError e;
                 EvOnRegionStale region (se_NewRegions se)])).
Proof.
  intros Hnl Hse Hc. split; intros s resp; intros; apply loop_return.
  - rewrite (kv_pass_response id timeout s region w1) with (resp := resp)
      by assumption.
    match goal with Hr : kvresp_RegionError resp = Some e |- _ => rewrite Hr end.
    rewrite (onRegionError_StaleEpoch region e (kvDispatched s id region timeout w1)
               se w2 r Hnl Hse Hc).
    destruct r as [c|]; [reflexivity|].
    simpl. rewrite kvReturn_eq. reflexivity.
  - rewrite (cop_pass_response id timeout s region w1) with (resp := resp)
      by assumption.
    match goal with Hr : copresp_RegionError resp = Some e |- _ => rewrite Hr end.
    rewrite (onRegionError_StaleEpoch region e (copDispatched s id region timeout w1)
               se w2 r Hnl Hse Hc).
    destruct r as [c|]; reflexivity.
Qed.

(** A KV request answered Stale-Epoch with an empty successor list: the
    entry leaves the cache and the Response comes back as it was sent.  A
    coprocessor request whose cache replacement fails gets that failure. *)
Lemma C7_stale_epoch_witness :
  let e := Scripted.staleErr [] in
  let region := mkRegion Scripted.R1 (mkContext 1 3 101) "store1:20160" in
  let sk := Scripted.kvStart (Scripted.kvWorld 0 [inl (mkKVResponse 1 (Some e) "")]) in
  let wc := Scripted.mkWorld None Scripted.cache1 (Some (ErrOpaque "pd unreachable")) 0 [] in
  let sc := Scripted.copStart (wc [inl (mkCopResponse (Some e) "")]) in
  SendKVReq 1 Scripted.R1 10 sk =
    Some ((Some (mkKVResponse 1 (Some e) ""), None),
          logged (kvDispatched sk Scripted.R1 region 10 (Scripted.kvWorld 0 []))
            (Scripted.mkWorld None [] None 0 [] [])
            [EvReportRegionError e; EvOnRegionStale region []])
  /\
  SendCopReq 1 Scripted.R1 10 sc =
    Some ((None, Some (Traced (Traced (ErrOpaque "pd unreachable")))),
          logged (copDispatched sc Scripted.R1 region 10 (wc []))
            (wc [])
            [EvReportRegionError e; EvOnRegionStale region []]).
Proof.
  intros e region sk wc sc. split.
  - refine (proj1 (C7_stale_epoch_returned Scripted.R1 10 0 region
                    (Scripted.kvWorld 0 []) (Scripted.mkWorld None [] None 0 [] [])
                    e (mkStaleEpoch []) None _ _ _)
             sk (mkKVResponse 1 (Some e) "") _ _ _ _); reflexivity.
  - refine (proj2 (C7_stale_epoch_returned Scripted.R1 10 0 region
                    (wc []) (wc [])
                    e (mkStaleEpoch []) (Some (ErrOpaque "pd unreachable"))
                    _ _ _)
             sc (mkCopResponse (Some e) "") _ _ _); reflexivity.
Defined.

(** C7 as stated fails for [SendKVReq]: the server answers a request of kind
    1 with a Stale-Epoch Response of kind 7; the cache takes the (empty)
    successor list, the sender does not retry, and the kind check that
    follows recovery turns the Response into the protocol-mismatch error. *)
Lemma C7_counterexample :
  let e := Scripted.staleErr [] in
  let bad := mkKVResponse 7 (Some e) "" in
  let sk := Scripted.kvStart (Scripted.kvWorld 0 [inl bad]) in
  let stamped := KVRequest_setContext Scripted.kvReq (mkContext 1 3 101) in
  variant e = VStaleEpoch
  /\ client_SendKVReq (st_world sk) "store1:20160" stamped 10
       = (Scripted.kvWorld 0 [], inl bad)
  /\ kvresp_RegionError bad = Some e
  /\ SendKVReq 1 Scripted.R1 10 sk =
       Some ((None, Some (Traced (errMismatch (Some bad) stamped))),
             mkSt (Scripted.mkWorld None [] None 0 [] []) stamped
               [EvCtxDone; EvGetRegionByVerID Scripted.R1;
                EvSendKVReq "store1:20160" stamped 10;
                EvReportRegionError e;
                EvOnRegionStale
                  (mkRegion Scripted.R1 (mkContext 1 3 101) "store1:20160") []]).
Proof.
  intros e bad sk stamped.
  split; [reflexivity|]. split; [reflexivity|]. split; reflexivity.
Qed.

(** C8, as the code has it, for a KV request (a coprocessor Response has no
    kind tag and [SendCopReq] makes no check): a Response that Send returns
    has the request's kind tag; and a pass whose transport call succeeds with
    a Response of another tag, when that Response reaches the kind check
    (it carries no Region Error, or a Stale-Epoch one that the cache took),
    makes Send return the protocol-mismatch error and not the Response. *)
Theorem C8_kv_kind_mismatch {W} `{Collaborators W}
  (id : RegionVerID) (timeout : Duration) :
  (forall fuel (s : St W KVRequest) r s',
      SendKVReq fuel id timeout s = Some ((Some r, None), s') ->
      kvresp_Type r = kvreq_Type (st_req s))
  /\
  (forall fuel (s : St W KVRequest) region w1 resp,
      ctx_Err (st_world s) = None ->
      GetRegionByVerID (st_world s) id = Some region ->
      client_SendKVReq (st_world s) (region_Address region)
        (KVRequest_setContext (st_req s) (region_Context region)) timeout
        = (w1, inl resp) ->
      kvresp_Type resp <> kvreq_Type (st_req s) ->
      let mismatch :=
        Traced (errMismatch (Some resp)
                  (KVRequest_setContext (st_req s) (region_Context region))) in
      (kvresp_RegionError resp = None ->
       SendKVReq (S fuel) id timeout s =
         Some ((None, Some mismatch), kvDispatched s id region timeout w1))
      /\
      (forall e se w2,
          kvresp_RegionError resp = Some e ->
          err_NotLeader e = None -> err_StaleEpoch e = Some se ->
          OnRegionStale w1 region (se_NewRegions se) = (w2, None) ->
          SendKVReq (S fuel) id timeout s =
            Some ((None, Some mismatch),
                  logged (kvDispatched s id region timeout w1) w2
                    [EvReportRegionError e;
                     EvOnRegionStale region (se_NewRegions se)]))).
Proof.
  split.
  - intros fuel s r s' Hsend.
    unfold SendKVReq in Hsend.
    refine (loop_result (SendKVReq_body id timeout)
              (fun s0 => kvreq_Type (st_req s0) = kvreq_Type (st_req s))
              (fun out => forall r, out = (Some r, None) ->
                                    kvresp_Type r = kvreq_Type (st_req s))
              _ _ fuel s _ s' eq_refl Hsend r eq_refl).
    + intros s0 a s0' Hinv Hb r0 Ha.
      pose proof (kv_pass_summary id timeout s0) as [_ Hsum].
      rewrite Hb in Hsum. simpl in Hsum. destruct Hsum as [_ Htag].
      rewrite <- Hinv. apply Htag. rewrite Ha. reflexivity.
    + intros s0 s0' Hinv Hb.
      pose proof (kv_pass_summary id timeout s0) as [Hty _].
      rewrite Hb in Hty. simpl in Hty. congruence.
  - intros fuel s region w1 resp Hctx Hreg Hs Hne mismatch.
    assert (Hcheck : forall s2 : St W KVRequest,
               st_req s2 = KVRequest_setContext (st_req s) (region_Context region) ->
               kvReturn (Some resp) s2 = (Return (None, Some mismatch), s2)).
    { intros s2 Hreq. rewrite kvReturn_eq. rewrite Hreq. simpl.
      unfold MessageType_eqb.
      destruct (Z.eqb_spec (kvresp_Type resp) (kvreq_Type (st_req s)));
        [contradiction | reflexivity]. }
    split.
    + intros Hnone. apply loop_return.
      rewrite (kv_pass_response id timeout s region w1 Hctx Hreg resp Hs).
      rewrite Hnone. apply Hcheck. reflexivity.
    + intros e se w2 He Hnl Hse Hc. apply loop_return.
      rewrite (kv_pass_response id timeout s region w1 Hctx Hreg resp Hs).
      rewrite He.
      rewrite (onRegionError_StaleEpoch region e (kvDispatched s id region timeout w1)
                 se w2 None Hnl Hse Hc).
      simpl. apply Hcheck. reflexivity.
Qed.

(** A Response of the right kind comes back; one of kind 7 for a request of
    kind 1 comes back as the protocol-mismatch error. *)
Lemma C8_kv_kind_mismatch_witness :
  let region := mkRegion Scripted.R1 (mkContext 1 3 101) "store1:20160" in
  let bad := mkKVResponse 7 None "v" in
  let sk := Scripted.kvStart (Scripted.kvWorld 0 [inl bad]) in
  kvresp_Type Scripted.okKV = kvreq_Type Scripted.kvReq
  /\
  SendKVReq 1 Scripted.R1 10 sk =
    Some ((None,
           Some (Traced (errMismatch (Some bad)
                           (KVRequest_setContext Scripted.kvReq (mkContext 1 3 101))))),
          kvDispatched sk Scripted.R1 region 10 (Scripted.kvWorld 0 [])).
Proof.
  intros region bad sk. split.
  - refine (proj1 (C8_kv_kind_mismatch Scripted.R1 10) 1%nat
              (Scripted.kvStart (Scripted.kvWorld 0 [inl Scripted.okKV]))
              Scripted.okKV
              (kvDispatched (Scripted.kvStart (Scripted.kvWorld 0 [inl Scripted.okKV]))
                 Scripted.R1 region 10 (Scripted.kvWorld 0 []))
              _).
    reflexivity.
  - refine (proj1 (proj2 (C8_kv_kind_mismatch Scripted.R1 10) 0%nat sk region
                     (Scripted.kvWorld 0 []) bad _ _ _ _) _);
      try reflexivity.
    simpl. discriminate.
Defined.

(** C8 as stated fails: the transport call succeeds with a Response of kind 7
    for a request of kind 1; the Response also says Not-Leader, so the sender
    goes round again, and the call ends with the second Response and no
    error.  No protocol-mismatch error is ever reported. *)
Lemma C8_counterexample :
  let bad := mkKVResponse 7 (Some (Scripted.notLeaderErr (Some Scripted.p2))) "" in
  let sk := Scripted.kvStart (Scripted.kvWorld 0 [inl bad; inl Scripted.okKV]) in
  client_SendKVReq (st_world sk) "store1:20160"
    (KVRequest_setContext (st_req sk) (mkContext 1 3 101)) 10
    = (Scripted.kvWorld 0 [inl Scripted.okKV], inl bad)
  /\ kvresp_Type bad <> kvreq_Type (st_req sk)
  /\ option_map fst (SendKVReq 2 Scripted.R1 10 sk) = Some (Some Scripted.okKV, None).
Proof.
  intros bad sk. split; [reflexivity|]. split; [|reflexivity].
  simpl. discriminate.
Qed.

(** C9: a pass that goes round the loop again has first made at least one
    cache mutation (advance peer, update leader, drop) or one backoff charge.
    Such a pass resolved the region, made the transport call, and met a
    failed call or a Region Error with one of the recoveries of [Recovered];
    the state in which the next pass begins is the dispatched state with
    that recovery's calls appended to the log and with the world that those
    calls, made on the collaborators, left. *)
Theorem C9_retry_passes_through_recovery {W} `{Collaborators W}
  (id : RegionVerID) (timeout : Duration) :
  (forall s s' : St W KVRequest,
      SendKVReq_body id timeout s = (Continue, s') ->
      exists region w1 answer trouble evs,
        ctx_Err (st_world s) = None /\
        GetRegionByVerID (st_world s) id = Some region /\
        client_SendKVReq (st_world s) (region_Address region)
          (KVRequest_setContext (st_req s) (region_Context region)) timeout
          = (w1, answer) /\
        kvTrouble answer = Some trouble /\
        Recovered region w1 trouble evs (st_world s') /\
        s' = logged (kvDispatched s id region timeout w1) (st_world s') evs /\
        existsb is_recovery evs = true)
  /\
  (forall s s' : St W CopRequest,
      SendCopReq_body id timeout s = (Continue, s') ->
      exists region w1 answer trouble evs,
        GetRegionByVerID (st_world s) id = Some region /\
        client_SendCopReq (st_world s) (region_Address region)
          (CopRequest_setContext (st_req s) (region_Context region)) timeout
          = (w1, answer) /\
        copTrouble answer = Some trouble /\
        Recovered region w1 trouble evs (st_world s') /\
        s' = logged (copDispatched s id region timeout w1) (st_world s') evs /\
        existsb is_recovery evs = true).
Proof.
  split; intros s s' Hbody.
  - destruct (ctx_Err (st_world s)) as [c|] eqn:Hctx.
    { rewrite (kv_pass_cancelled id timeout s c Hctx) in Hbody. discriminate. }
    destruct (GetRegionByVerID (st_world s) id) as [region|] eqn:Hreg.
    2:{ rewrite (kv_pass_unknown id timeout s Hctx Hreg) in Hbody. discriminate. }
    destruct (client_SendKVReq (st_world s) (region_Address region)
                (KVRequest_setContext (st_req s) (region_Context region)) timeout)
      as [w1 [resp|err]] eqn:Hs.
    + rewrite (kv_pass_response id timeout s region w1 Hctx Hreg resp Hs) in Hbody.
      destruct (kvresp_RegionError resp) as [e|] eqn:He.
      2:{ rewrite kvReturn_eq in Hbody. discriminate. }
      destruct (onRegionError region e (kvDispatched s id region timeout w1))
        as [[[|] [err|]] s2] eqn:Hre; try discriminate.
      2:{ rewrite kvReturn_eq in Hbody. discriminate. }
      inversion Hbody; subst s2.
      destruct (onRegionError_retry region e _ s' Hre) as (evs & Hrec & Hs').
      exists region, w1, (inl resp), (inl e), evs.
      repeat split; try assumption.
      * simpl. rewrite He. reflexivity.
      * exact (Recovered_is_recovery region _ _ _ _ Hrec).
    + destruct (Backoff (NextPeer w1 (region_VerID region)) boTiKVRPC
                  (ErrSendFail err (region_Context region))) as [w2 r] eqn:Hb.
      rewrite (kv_pass_send_fail id timeout s region w1 Hctx Hreg err w2 r Hs Hb) in Hbody.
      destruct r; inversion Hbody; subst s'.
      exists region, w1, (inr err), (inr err),
        [EvNextPeer (region_VerID region);
         EvBackoff boTiKVRPC (ErrSendFail err (region_Context region))].
      repeat split; try assumption; try reflexivity.
      simpl. apply Recovered_send_fail. exact Hb.
  - destruct (GetRegionByVerID (st_world s) id) as [region|] eqn:Hreg.
    2:{ rewrite (cop_pass_unknown id timeout s Hreg) in Hbody. discriminate. }
    destruct (client_SendCopReq (st_world s) (region_Address region)
                (CopRequest_setContext (st_req s) (region_Context region)) timeout)
      as [w1 [resp|err]] eqn:Hs.
    + rewrite (cop_pass_response id timeout s region w1 Hreg resp Hs) in Hbody.
      destruct (copresp_RegionError resp) as [e|] eqn:He; [|discriminate].
      destruct (onRegionError region e (copDispatched s id region timeout w1))
        as [[[|] [err|]] s2] eqn:Hre; try discriminate.
      inversion Hbody; subst s2.
      destruct (onRegionError_retry region e _ s' Hre) as (evs & Hrec & Hs').
      exists region, w1, (inl resp), (inl e), evs.
      repeat split; try assumption.
      * simpl. rewrite He. reflexivity.
      * exact (Recovered_is_recovery region _ _ _ _ Hrec).
    + destruct (Backoff (NextPeer w1 (region_VerID region)) boTiKVRPC
                  (ErrSendFail err (region_Context region))) as [w2 r] eqn:Hb.
      rewrite (cop_pass_send_fail id timeout s region w1 Hreg err w2 r Hs Hb) in Hbody.
      destruct r; inversion Hbody; subst s'.
      exists region, w1, (inr err), (inr err),
        [EvNextPeer (region_VerID region);
         EvBackoff boTiKVRPC (ErrSendFail err (region_Context region))].
      repeat split; try assumption; try reflexivity.
      simpl. apply Recovered_send_fail. exact Hb.
Qed.

(** A KV pass whose transport call fails under a budget of one charge, and a
    coprocessor pass answered with a busy server, both go round again: the
    next pass begins with the charge spent (and, for the KV call, with the
    second peer selected). *)
Lemma C9_retry_witness :
  let region := mkRegion Scripted.R1 (mkContext 1 3 101) "store1:20160" in
  let sk := Scripted.kvStart (Scripted.kvWorld 1 [inr (ErrOpaque "timeout")]) in
  let sc := Scripted.copStart
              (Scripted.copWorld 1 [inl (mkCopResponse (Some Scripted.busyErr) "")]) in
  let sk' := snd (SendKVReq_body Scripted.R1 10 sk) in
  let sc' := snd (SendCopReq_body Scripted.R1 10 sc) in
  (Scripted.w_budget (st_world sk') = 0%nat /\
   Scripted.getRegion (st_world sk') Scripted.R1 =
     Some (mkRegion Scripted.R1 (mkContext 1 3 102) "store2:20160") /\
   exists region w1 answer trouble evs,
     ctx_Err (st_world sk) = None /\
     GetRegionByVerID (st_world sk) Scripted.R1 = Some region /\
     client_SendKVReq (st_world sk) (region_Address region)
       (KVRequest_setContext (st_req sk) (region_Context region)) 10
       = (w1, answer) /\
     kvTrouble answer = Some trouble /\
     Recovered region w1 trouble evs (st_world sk') /\
     sk' = logged (kvDispatched sk Scripted.R1 region 10 w1) (st_world sk') evs /\
     existsb is_recovery evs = true)
  /\
  (Scripted.w_budget (st_world sc') = 0%nat /\
   exists region w1 answer trouble evs,
     GetRegionByVerID (st_world sc) Scripted.R1 = Some region /\
     client_SendCopReq (st_world sc) (region_Address region)
       (CopRequest_setContext (st_req sc) (region_Context region)) 10
       = (w1, answer) /\
     copTrouble answer = Some trouble /\
     Recovered region w1 trouble evs (st_world sc') /\
     sc' = logged (copDispatched sc Scripted.R1 region 10 w1) (st_world sc') evs /\
     existsb is_recovery evs = true).
Proof.
  intros region sk sc sk' sc'. split.
  - split; [reflexivity|]. split; [reflexivity|].
    apply (proj1 (C9_retry_passes_through_recovery Scripted.R1 10) sk sk').
    reflexivity.
  - split; [reflexivity|].
    apply (proj2 (C9_retry_passes_through_recovery Scripted.R1 10) sc sc').
    reflexivity.
Defined.

(** C10: in a pass whose transport call succeeds with a Response that
    carries no Region Error, the sender returns; the world is the one the
    transport call left; the calls it made are the lookup and the dispatch
    (after the context check, for a KV request), with no cache mutation and no
    backoff charge; and the request, which is the one the dispatch carried,
    has the snapshot's context in its routing-context field and is otherwise
    the request it was given. *)
Theorem C10_clean_pass_frame {W} `{Collaborators W}
  (id : RegionVerID) (timeout : Duration) (region : Region) (w1 : W) :
  (forall (s : St W KVRequest) resp,
      ctx_Err (st_world s) = None ->
      GetRegionByVerID (st_world s) id = Some region ->
      client_SendKVReq (st_world s) (region_Address region)
        (KVRequest_setContext (st_req s) (region_Context region)) timeout
        = (w1, inl resp) ->
      kvresp_RegionError resp = None ->
      exists out req' evs,
        SendKVReq_body id timeout s =
          (Return out, mkSt w1 req' (st_log s ++ evs)) /\
        evs = [EvCtxDone; EvGetRegionByVerID id;
               EvSendKVReq (region_Address region) req' timeout] /\
        existsb is_recovery evs = false /\
        kvreq_Context req' = Some (region_Context region) /\
        kvreq_Type req' = kvreq_Type (st_req s) /\
        kvreq_Body req' = kvreq_Body (st_req s))
  /\
  (forall (s : St W CopRequest) resp,
      GetRegionByVerID (st_world s) id = Some region ->
      client_SendCopReq (st_world s) (region_Address region)
        (CopRequest_setContext (st_req s) (region_Context region)) timeout
        = (w1, inl resp) ->
      copresp_RegionError resp = None ->
      exists out req' evs,
        SendCopReq_body id timeout s =
          (Return out, mkSt w1 req' (st_log s ++ evs)) /\
        evs = [EvGetRegionByVerID id;
               EvSendCopReq (region_Address region) req' timeout] /\
        existsb is_recovery evs = false /\
        copreq_Context req' = Some (region_Context region) /\
        copreq_Data req' = copreq_Data (st_req s)).
Proof.
  split; intros s resp; intros.
  - rewrite (kv_pass_response id timeout s region w1) with (resp := resp)
      by assumption.
    match goal with Hn : kvresp_RegionError resp = None |- _ => rewrite Hn end.
    rewrite kvReturn_eq.
    exists (if MessageType_eqb (KVResponse_GetType (Some resp))
                 (kvreq_Type (st_req (kvDispatched s id region timeout w1)))
            then (Some resp, None)
            else (None,
                  Some (Traced (errMismatch (Some resp)
                                  (st_req (kvDispatched s id region timeout w1)))))),
      (KVRequest_setContext (st_req s) (region_Context region)),
      [EvCtxDone; EvGetRegionByVerID id;
       EvSendKVReq (region_Address region)
         (KVRequest_setContext (st_req s) (region_Context region)) timeout].
    repeat split.
  - rewrite (cop_pass_response id timeout s region w1) with (resp := resp)
      by assumption.
    match goal with Hn : copresp_RegionError resp = None |- _ => rewrite Hn end.
    exists (Some resp, None),
      (CopRequest_setContext (st_req s) (region_Context region)),
      [EvGetRegionByVerID id;
       EvSendCopReq (region_Address region)
         (CopRequest_setContext (st_req s) (region_Context region)) timeout].
    repeat split.
Qed.

(** A KV and a coprocessor request, each sent with an empty routing context
    and answered at once by the selected peer p1: the request comes back
    carrying p1's context. *)
Lemma C10_clean_pass_witness :
  (exists out req' evs,
      SendKVReq_body Scripted.R1 10
        (Scripted.kvStart (Scripted.kvWorld 0 [inl Scripted.okKV])) =
        (Return out, mkSt (Scripted.kvWorld 0 []) req' ([] ++ evs)) /\
      evs = [EvCtxDone; EvGetRegionByVerID Scripted.R1;
             EvSendKVReq "store1:20160" req' 10] /\
      existsb is_recovery evs = false /\
      kvreq_Context req' = Some (mkContext 1 3 101) /\
      kvreq_Type req' = 1 /\
      kvreq_Body req' = "get k")
  /\
  (exists out req' evs,
      SendCopReq_body Scripted.R1 10
        (Scripted.copStart (Scripted.copWorld 0 [inl Scripted.okCop])) =
        (Return out, mkSt (Scripted.copWorld 0 []) req' ([] ++ evs)) /\
      evs = [EvGetRegionByVerID Scripted.R1;
             EvSendCopReq "store1:20160" req' 10] /\
      existsb is_recovery evs = false /\
      copreq_Context req' = Some (mkContext 1 3 101) /\
      copreq_Data req' = "select").
Proof.
  split.
  - apply (proj1 (C10_clean_pass_frame Scripted.R1 10
                    (mkRegion Scripted.R1 (mkContext 1 3 101) "store1:20160")
                    (Scripted.kvWorld 0 []))
             (Scripted.kvStart (Scripted.kvWorld 0 [inl Scripted.okKV]))
             Scripted.okKV); reflexivity.
  - apply (proj2 (C10_clean_pass_frame Scripted.R1 10
                    (mkRegion Scripted.R1 (mkContext 1 3 101) "store1:20160")
                    (Scripted.copWorld 0 []))
             (Scripted.copStart (Scripted.copWorld 0 [inl Scripted.okCop]))
             Scripted.okCop); reflexivity.
Defined.

(** ** Further properties of the sender *)

Section MoreLoopFacts.

Context {W Req A : Type} (body : M W Req (Step A)).

(** Passes that all ended in [continue] only use up fuel. *)
Lemma loop_retried n : forall s s' fuel,
  retried body n s = Some s' ->
  loop body (n + fuel) s = loop body fuel s'.
Proof.
  induction n as [|n IH]; intros s s' fuel Hr; simpl in *.
  - inversion Hr; subst. reflexivity.
  - destruct (body s) as [[|a] s1]; [|discriminate].
    apply IH. exact Hr.
Qed.

(** A property of states that every pass keeps holds of the state in which
    the loop returns. *)
Lemma loop_final_state (I : St W Req -> Prop) :
  (forall s, I s -> I (snd (body s))) ->
  forall fuel s a s', I s -> loop body fuel s = Some (a, s') -> I s'.
Proof.
  intros Hkeep. induction fuel as [|n IH]; intros s a s' Hi Hl; [discriminate|].
  simpl in Hl. pose proof (Hkeep s Hi) as Hnext.
  destruct (body s) as [[|a1] s1]; simpl in Hnext.
  - eapply IH; eassumption.
  - inversion Hl; subst. exact Hnext.
Qed.

End MoreLoopFacts.

(** The success path: a Response that carries no Region Error (and, for a KV
    request, has the request's kind tag) is what Send returns, as the
    transport delivered it, in the pass that received it. *)
Theorem clean_response_is_returned {W} `{Collaborators W}
  (id : RegionVerID) (timeout : Duration) (fuel : nat) (region : Region) (w1 : W) :
  (forall (s : St W KVRequest) resp,
      ctx_Err (st_world s) = None ->
      GetRegionByVerID (st_world s) id = Some region ->
      client_SendKVReq (st_world s) (region_Address region)
        (KVRequest_setContext (st_req s) (region_Context region)) timeout
        = (w1, inl resp) ->
      kvresp_RegionError resp = None ->
      kvresp_Type resp = kvreq_Type (st_req s) ->
      SendKVReq (S fuel) id timeout s =
        Some ((Some resp, None), kvDispatched s id region timeout w1))
  /\
  (forall (s : St W CopRequest) resp,
      GetRegionByVerID (st_world s) id = Some region ->
      client_SendCopReq (st_world s) (region_Address region)
        (CopRequest_setContext (st_req s) (region_Context region)) timeout
        = (w1, inl resp) ->
      copresp_RegionError resp = None ->
      SendCopReq (S fuel) id timeout s =
        Some ((Some resp, None), copDispatched s id region timeout w1)).
Proof.
  split.
  - intros s resp Hctx Hreg Hs Hnone Hty. apply loop_return.
    rewrite (kv_pass_response id timeout s region w1 Hctx Hreg resp Hs), Hnone.
    rewrite kvReturn_eq. simpl. rewrite Hty.
    unfold MessageType_eqb. rewrite Z.eqb_refl. reflexivity.
  - intros s resp Hreg Hs Hnone. apply loop_return.
    rewrite (cop_pass_response id timeout s region w1 Hreg resp Hs), Hnone.
    reflexivity.
Qed.

Lemma clean_response_witness :
  let region := mkRegion Scripted.R1 (mkContext 1 3 101) "store1:20160" in
  let sk := Scripted.kvStart (Scripted.kvWorld 0 [inl Scripted.okKV]) in
  let sc := Scripted.copStart (Scripted.copWorld 0 [inl Scripted.okCop]) in
  SendKVReq 1 Scripted.R1 10 sk =
    Some ((Some Scripted.okKV, None),
          kvDispatched sk Scripted.R1 region 10 (Scripted.kvWorld 0 []))
  /\
  SendCopReq 1 Scripted.R1 10 sc =
    Some ((Some Scripted.okCop, None),
          copDispatched sc Scripted.R1 region 10 (Scripted.copWorld 0 [])).
Proof.
  intros region sk sc. split.
  - refine (proj1 (clean_response_is_returned Scripted.R1 10 0 region
                     (Scripted.kvWorld 0 [])) sk Scripted.okKV _ _ _ _ _);
      reflexivity.
  - refine (proj2 (clean_response_is_returned Scripted.R1 10 0 region
                     (Scripted.copWorld 0 [])) sc Scripted.okCop _ _ _);
      reflexivity.
Defined.

(** Server-Busy: the pass makes one charge on the server-busy budget and no
    cache mutation.  When the charge succeeds Send goes on with its next
    pass; when it fails Send returns the charge's failure as its error and
    not the busy Response. *)
Theorem server_busy_recovery {W} `{Collaborators W}
  (id : RegionVerID) (timeout : Duration) (fuel : nat)
  (region : Region) (w1 w2 : W) (e : Error) (b : ServerIsBusy) (r : option error) :
  err_NotLeader e = None ->
  err_StaleEpoch e = None ->
  err_ServerIsBusy e = Some b ->
  Backoff w1 boServerBusy ErrServerBusy = (w2, r) ->
  (forall (s : St W KVRequest) resp,
      ctx_Err (st_world s) = None ->
      GetRegionByVerID (st_world s) id = Some region ->
      client_SendKVReq (st_world s) (region_Address region)
        (KVRequest_setContext (st_req s) (region_Context region)) timeout
        = (w1, inl resp) ->
      kvresp_RegionError resp = Some e ->
      let s2 := logged (kvDispatched s id region timeout w1) w2
                  [EvReportRegionError e; EvBackoff boServerBusy ErrServerBusy] in
      SendKVReq (S fuel) id timeout s =
        match r with
        | Some f => Some ((None, Some (Traced (Traced f))), s2)
        | None => SendKVReq fuel id timeout s2
        end)
  /\
  (forall (s : St W CopRequest) resp,
      GetRegionByVerID (st_world s) id = Some region ->
      client_SendCopReq (st_world s) (region_Address region)
        (CopRequest_setContext (st_req s) (region_Context region)) timeout
        = (w1, inl resp) ->
      copresp_RegionError resp = Some e ->
      let s2 := logged (copDispatched s id region timeout w1) w2
                  [EvReportRegionError e; EvBackoff boServerBusy ErrServerBusy] in
      SendCopReq (S fuel) id timeout s =
        match r with
        | Some f => Some ((None, Some (Traced (Traced f))), s2)
        | None => SendCopReq fuel id timeout s2
        end).
Proof.
  intros Hnl Hse Hb Hc. split.
  - intros s resp Hctx Hreg Hs He s2. unfold SendKVReq.
    assert (Hbody : SendKVReq_body id timeout s =
              (match r with
               | Some f => Return (None, Some (Traced (Traced f)))
               | None => Continue
               end, s2)).
    { rewrite (kv_pass_response id timeout s region w1 Hctx Hreg resp Hs), He.
      rewrite (onRegionError_ServerIsBusy region e
                 (kvDispatched s id region timeout w1) b w2 r Hnl Hse Hb Hc).
      destruct r; reflexivity. }
    destruct r; [apply loop_return | apply loop_continue]; exact Hbody.
  - intros s resp Hreg Hs He s2. unfold SendCopReq.
    assert (Hbody : SendCopReq_body id timeout s =
              (match r with
               | Some f => Return (None, Some (Traced (Traced f)))
               | None => Continue
               end, s2)).
    { rewrite (cop_pass_response id timeout s region w1 Hreg resp Hs), He.
      rewrite (onRegionError_ServerIsBusy region e
                 (copDispatched s id region timeout w1) b w2 r Hnl Hse Hb Hc).
      destruct r; reflexivity. }
    destruct r; [apply loop_return | apply loop_continue]; exact Hbody.
Qed.

(** A busy server under a budget of one charge: the KV call charges it and
    returns the second answer.  Under an empty budget the coprocessor call
    fails with the backoffer's error. *)
Lemma server_busy_witness :
  let region := mkRegion Scripted.R1 (mkContext 1 3 101) "store1:20160" in
  let busy := mkKVResponse 1 (Some Scripted.busyErr) "" in
  let busyCop := mkCopResponse (Some Scripted.busyErr) "" in
  let sk := Scripted.kvStart (Scripted.kvWorld 1 [inl busy; inl Scripted.okKV]) in
  let sc := Scripted.copStart (Scripted.copWorld 0 [inl busyCop]) in
  SendKVReq 2 Scripted.R1 10 sk =
    SendKVReq 1 Scripted.R1 10
      (logged (kvDispatched sk Scripted.R1 region 10 (Scripted.kvWorld 1 [inl Scripted.okKV]))
         (Scripted.kvWorld 0 [inl Scripted.okKV])
         [EvReportRegionError Scripted.busyErr; EvBackoff boServerBusy ErrServerBusy])
  /\
  SendCopReq 1 Scripted.R1 10 sc =
    Some ((None, Some (Traced (Traced (ErrOpaque "backoffer.maxSleep is exceeded")))),
          logged (copDispatched sc Scripted.R1 region 10 (Scripted.copWorld 0 []))
            (Scripted.copWorld 0 [])
            [EvReportRegionError Scripted.busyErr; EvBackoff boServerBusy ErrServerBusy]).
Proof.
  intros region busy busyCop sk sc. split.
  - refine (proj1 (server_busy_recovery Scripted.R1 10 1 region
                     (Scripted.kvWorld 1 [inl Scripted.okKV])
                     (Scripted.kvWorld 0 [inl Scripted.okKV])
                     Scripted.busyErr (mkServerIsBusy "too many requests") None
                     _ _ _ _) sk busy _ _ _ _); reflexivity.
  - refine (proj2 (server_busy_recovery Scripted.R1 10 0 region
                     (Scripted.copWorld 0 []) (Scripted.copWorld 0 [])
                     Scripted.busyErr (mkServerIsBusy "too many requests")
                     (Some (ErrOpaque "backoffer.maxSleep is exceeded"))
                     _ _ _ _) sc busyCop _ _ _); reflexivity.
Defined.

(** Send-failure recovery: when the transport call fails, the pass advances
    the peer and then makes one charge on the RPC-error budget, and the
    transport's answer is dropped.  When the charge succeeds both entry
    points go on with the next pass; when it fails [SendKVReq] returns an
    error whose cause is the charge's failure. *)
Theorem send_failure_recovery {W} `{Collaborators W}
  (id : RegionVerID) (timeout : Duration) (fuel : nat)
  (region : Region) (w1 w2 : W) (err : error) (r : option error) :
  Backoff (NextPeer w1 (region_VerID region)) boTiKVRPC
    (ErrSendFail err (region_Context region)) = (w2, r) ->
  (forall s : St W KVRequest,
      ctx_Err (st_world s) = None ->
      GetRegionByVerID (st_world s) id = Some region ->
      client_SendKVReq (st_world s) (region_Address region)
        (KVRequest_setContext (st_req s) (region_Context region)) timeout
        = (w1, inr err) ->
      let s2 := logged (kvDispatched s id region timeout w1) w2
                  [EvNextPeer (region_VerID region);
                   EvBackoff boTiKVRPC (ErrSendFail err (region_Context region))] in
      match r with
      | Some f =>
          exists e, SendKVReq (S fuel) id timeout s = Some ((None, Some e), s2) /\
                    Cause e = Cause f
      | None => SendKVReq (S fuel) id timeout s = SendKVReq fuel id timeout s2
      end)
  /\
  (forall s : St W CopRequest,
      GetRegionByVerID (st_world s) id = Some region ->
      client_SendCopReq (st_world s) (region_Address region)
        (CopRequest_setContext (st_req s) (region_Context region)) timeout
        = (w1, inr err) ->
      r = None ->
      SendCopReq (S fuel) id timeout s =
        SendCopReq fuel id timeout
          (logged (copDispatched s id region timeout w1) w2
             [EvNextPeer (region_VerID region);
              EvBackoff boTiKVRPC (ErrSendFail err (region_Context region))])).
Proof.
  intros Hb. split.
  - intros s Hctx Hreg Hs s2.
    pose proof (kv_pass_send_fail id timeout s region w1 Hctx Hreg err w2 r Hs Hb)
      as Hbody.
    destruct r as [f|].
    + exists (Traced (Traced (Traced f))). split; [|reflexivity].
      apply loop_return. exact Hbody.
    + apply loop_continue. exact Hbody.
  - intros s Hreg Hs ->.
    apply loop_continue.
    exact (cop_pass_send_fail id timeout s region w1 Hreg err w2 None Hs Hb).
Qed.

(** A timeout under an empty budget ends the KV call with the backoffer's
    error; under a budget of one charge the coprocessor call tries the
    second peer. *)
Lemma send_failure_witness :
  let region := mkRegion Scripted.R1 (mkContext 1 3 101) "store1:20160" in
  let detail := ErrSendFail (ErrOpaque "timeout") (mkContext 1 3 101) in
  let sk := Scripted.kvStart (Scripted.kvWorld 0 [inr (ErrOpaque "timeout")]) in
  let sc := Scripted.copStart
              (Scripted.copWorld 1 [inr (ErrOpaque "timeout"); inl Scripted.okCop]) in
  (exists e,
      SendKVReq 1 Scripted.R1 10 sk =
        Some ((None, Some e),
              logged (kvDispatched sk Scripted.R1 region 10 (Scripted.kvWorld 0 []))
                (NextPeer (Scripted.kvWorld 0 []) Scripted.R1)
                [EvNextPeer Scripted.R1; EvBackoff boTiKVRPC detail]) /\
      Cause e = Cause (ErrOpaque "backoffer.maxSleep is exceeded"))
  /\
  SendCopReq 2 Scripted.R1 10 sc =
    SendCopReq 1 Scripted.R1 10
      (logged (copDispatched sc Scripted.R1 region 10
                 (Scripted.copWorld 1 [inl Scripted.okCop]))
         (NextPeer (Scripted.copWorld 0 [inl Scripted.okCop]) Scripted.R1)
         [EvNextPeer Scripted.R1; EvBackoff boTiKVRPC detail]).
Proof.
  intros region detail sk sc. split.
  - refine (proj1 (send_failure_recovery Scripted.R1 10 0 region
                     (Scripted.kvWorld 0 [])
                     (NextPeer (Scripted.kvWorld 0 []) Scripted.R1)
                     (ErrOpaque "timeout")
                     (Some (ErrOpaque "backoffer.maxSleep is exceeded")) _)
              sk _ _ _); reflexivity.
  - refine (proj2 (send_failure_recovery Scripted.R1 10 1 region
                     (Scripted.copWorld 1 [inl Scripted.okCop])
                     (NextPeer (Scripted.copWorld 0 [inl Scripted.okCop]) Scripted.R1)
                     (ErrOpaque "timeout") None _)
              sc _ _ _); reflexivity.
Defined.

(** Cancellation of a KV call: whenever a pass of [SendKVReq] begins with the
    context fired, be it the first or one reached after [n] retries, the call
    returns the context's error from that pass, with no lookup, no dispatch
    and no change to the world. *)
Theorem kv_cancelled_between_retries {W} `{Collaborators W}
  (id : RegionVerID) (timeout : Duration) (n fuel : nat)
  (s s' : St W KVRequest) (c : error) :
  retried (SendKVReq_body id timeout) n s = Some s' ->
  ctx_Err (st_world s') = Some c ->
  SendKVReq (n + S fuel) id timeout s =
    Some ((None, Some (Traced c)), logged s' (st_world s') [EvCtxDone]).
Proof.
  intros Hr Hc. unfold SendKVReq.
  rewrite (loop_retried (SendKVReq_body id timeout) n s s' (S fuel) Hr).
  apply loop_return. apply kv_pass_cancelled. exact Hc.
Qed.

(** The deadline passes while the sender recovers from a timeout: two
    blocking calls are left, the transport call and the backoff wait use them
    up, and the second pass returns the deadline error although the second
    peer would have answered. *)
Lemma kv_cancelled_witness :
  let w : Timed.World :=
    (2%nat, Scripted.kvWorld 3 [inr (ErrOpaque "timeout"); inl Scripted.okKV]) in
  let s := mkSt w Scripted.kvReq [] in
  let s' := snd (SendKVReq_body Scripted.R1 10 s) in
  SendKVReq (1 + 1) Scripted.R1 10 s =
    Some ((None, Some (Traced (ErrOpaque "context deadline exceeded"))),
          logged s' (st_world s') [EvCtxDone]).
Proof.
  intros w s s'.
  refine (kv_cancelled_between_retries Scripted.R1 10 1 0 s s'
            (ErrOpaque "context deadline exceeded") _ _); reflexivity.
Defined.

(** [SendCopReq] never reads the context: behind any other cancellation
    signal the call makes the same passes and ends in the same outcome and
    state. *)
Theorem cop_outcome_independent_of_context {W} (C : Collaborators W)
  (f : W -> option error) (id : RegionVerID) (timeout : Duration) (fuel : nat) :
  forall s : St W CopRequest,
    @SendCopReq W (withCtxErr C f) fuel id timeout s =
    @SendCopReq W C fuel id timeout s.
Proof.
  unfold SendCopReq.
  induction fuel as [|n IH]; intros s; [reflexivity|].
  simpl.
  change (@SendCopReq_body W (withCtxErr C f) id timeout s)
    with (@SendCopReq_body W C id timeout s).
  destruct (@SendCopReq_body W C id timeout s) as [[|a] s1]; [apply IH | reflexivity].
Qed.

Section Frames.

Context {W : Type} `{Collaborators W}.
Variables (id : RegionVerID) (timeout : Duration).

(** Recovery makes no transport call and leaves the request alone. *)
Lemma onRegionError_no_transport {Req} (region : Region) (e : Error) (s : St W Req) :
  exists w2 evs,
    snd (onRegionError region e s) = logged s w2 evs /\
    existsb is_transport evs = false.
Proof.
  destruct (err_NotLeader e) as [nl|] eqn:Hnl.
  - destruct (nl_Leader nl) as [p|] eqn:Hp.
    + rewrite (onRegionError_NotLeader_leader region e s nl p Hnl Hp).
      eexists _, _. split; reflexivity.
    + destruct (Backoff (UpdateLeader (st_world s) (region_VerID region) 0)
                  boRegionMiss (ErrNotLeader nl (region_Context region)))
        as [w2 r] eqn:Hb.
      rewrite (onRegionError_NotLeader_unknown region e s nl w2 r Hnl Hp Hb).
      eexists _, _. split; reflexivity.
  - destruct (err_StaleEpoch e) as [se|] eqn:Hse.
    + destruct (OnRegionStale (st_world s) region (se_NewRegions se))
        as [w2 r] eqn:Hc.
      rewrite (onRegionError_StaleEpoch region e s se w2 r Hnl Hse Hc).
      eexists _, _. split; reflexivity.
    + destruct (err_ServerIsBusy e) as [b|] eqn:Hb.
      * destruct (Backoff (st_world s) boServerBusy ErrServerBusy) as [w2 r] eqn:Hc.
        rewrite (onRegionError_ServerIsBusy region e s b w2 r Hnl Hse Hb Hc).
        eexists _, _. split; reflexivity.
      * rewrite (onRegionError_Other region e s Hnl Hse Hb).
        eexists _, _. split; reflexivity.
Qed.

(** What a pass of [SendKVReq] does to the state: it appends to the log; it
    leaves the request as it was, or as it was with the context of the
    region it resolved; and if it made a transport call it made one, after a
    context check that had not fired, to that region's address, with that
    request and the caller's timeout. *)
Lemma kv_pass_effect (s : St W KVRequest) :
  exists evs,
    st_log (snd (SendKVReq_body id timeout s)) = st_log s ++ evs /\
    (existsb is_transport evs = false /\
     st_req (snd (SendKVReq_body id timeout s)) = st_req s
     \/
     exists region pre post,
       ctx_Err (st_world s) = None /\
       GetRegionByVerID (st_world s) id = Some region /\
       st_req (snd (SendKVReq_body id timeout s)) =
         KVRequest_setContext (st_req s) (region_Context region) /\
       evs = pre ++ EvSendKVReq (region_Address region)
                      (KVRequest_setContext (st_req s) (region_Context region))
                      timeout :: post /\
       existsb is_transport pre = false /\
       existsb is_transport post = false).
Proof.
  destruct (ctx_Err (st_world s)) as [c|] eqn:Hctx.
  { rewrite (kv_pass_cancelled id timeout s c Hctx). simpl.
    eexists. split; [reflexivity|]. left. split; reflexivity. }
  destruct (GetRegionByVerID (st_world s) id) as [region|] eqn:Hreg.
  2:{ rewrite (kv_pass_unknown id timeout s Hctx Hreg). simpl.
      eexists. split; [reflexivity|]. left. split; reflexivity. }
  destruct (client_SendKVReq (st_world s) (region_Address region)
              (KVRequest_setContext (st_req s) (region_Context region)) timeout)
    as [w1 [resp|err]] eqn:Hs.
  - rewrite (kv_pass_response id timeout s region w1 Hctx Hreg resp Hs).
    destruct (kvresp_RegionError resp) as [e|].
    + destruct (onRegionError_no_transport region e
                  (kvDispatched s id region timeout w1)) as (w2 & post & Hsnd & Hpost).
      destruct (onRegionError region e (kvDispatched s id region timeout w1))
        as [[[|] [err|]] s2]; simpl in Hsnd; subst s2;
        try rewrite kvReturn_eq;
        unfold logged, kvDispatched; simpl; rewrite <- app_assoc; simpl;
        (eexists; split; [reflexivity|]; right;
         exists region, [EvCtxDone; EvGetRegionByVerID id], post;
         repeat split; try reflexivity; assumption).
    + rewrite kvReturn_eq. unfold kvDispatched. simpl.
      eexists. split; [reflexivity|]. right.
      exists region, [EvCtxDone; EvGetRegionByVerID id], [].
      repeat split; reflexivity.
  - destruct (Backoff (NextPeer w1 (region_VerID region)) boTiKVRPC
                (ErrSendFail err (region_Context region))) as [w2 r] eqn:Hb.
    rewrite (kv_pass_send_fail id timeout s region w1 Hctx Hreg err w2 r Hs Hb).
    unfold logged, kvDispatched. simpl. rewrite <- app_assoc. simpl.
    eexists. split; [reflexivity|]. right.
    exists region, [EvCtxDone; EvGetRegionByVerID id],
      [EvNextPeer (region_VerID region);
       EvBackoff boTiKVRPC (ErrSendFail err (region_Context region))].
    repeat split; reflexivity.
Qed.

End Frames.

Section CopFrames.

Context {W : Type} `{Collaborators W}.
Variables (id : RegionVerID) (timeout : Duration).

(** The same for a pass of [SendCopReq], which makes no context check. *)
Lemma cop_pass_effect (s : St W CopRequest) :
  exists evs,
    st_log (snd (SendCopReq_body id timeout s)) = st_log s ++ evs /\
    (existsb is_transport evs = false /\
     st_req (snd (SendCopReq_body id timeout s)) = st_req s
     \/
     exists region pre post,
       GetRegionByVerID (st_world s) id = Some region /\
       st_req (snd (SendCopReq_body id timeout s)) =
         CopRequest_setContext (st_req s) (region_Context region) /\
       evs = pre ++ EvSendCopReq (region_Address region)
                      (CopRequest_setContext (st_req s) (region_Context region))
                      timeout :: post /\
       existsb is_transport pre = false /\
       existsb is_transport post = false).
Proof.
  destruct (GetRegionByVerID (st_world s) id) as [region|] eqn:Hreg.
  2:{ rewrite (cop_pass_unknown id timeout s Hreg). simpl.
      eexists. split; [reflexivity|]. left. split; reflexivity. }
  destruct (client_SendCopReq (st_world s) (region_Address region)
              (CopRequest_setContext (st_req s) (region_Context region)) timeout)
    as [w1 [resp|err]] eqn:Hs.
  - rewrite (cop_pass_response id timeout s region w1 Hreg resp Hs).
    destruct (copresp_RegionError resp) as [e|].
    + destruct (onRegionError_no_transport region e
                  (copDispatched s id region timeout w1)) as (w2 & post & Hsnd & Hpost).
      destruct (onRegionError region e (copDispatched s id region timeout w1))
        as [[[|] [err|]] s2]; simpl in Hsnd; subst s2;
        unfold logged, copDispatched; simpl; rewrite <- app_assoc; simpl;
        (eexists; split; [reflexivity|]; right;
         exists region, [EvGetRegionByVerID id], post;
         repeat split; try reflexivity; assumption).
    + unfold copDispatched. simpl.
      eexists. split; [reflexivity|]. right.
      exists region, [EvGetRegionByVerID id], [].
      repeat split; reflexivity.
  - destruct (Backoff (NextPeer w1 (region_VerID region)) boTiKVRPC
                (ErrSendFail err (region_Context region))) as [w2 r] eqn:Hb.
    rewrite (cop_pass_send_fail id timeout s region w1 Hreg err w2 r Hs Hb).
    unfold logged, copDispatched. simpl. rewrite <- app_assoc. simpl.
    eexists. split; [reflexivity|]. right.
    exists region, [EvGetRegionByVerID id],
      [EvNextPeer (region_VerID region);
       EvBackoff boTiKVRPC (ErrSendFail err (region_Context region))].
    repeat split; reflexivity.
Qed.

End CopFrames.





(** The request frame: whatever a call does and however many passes it
    makes, when it returns the caller's request differs from the one passed
    in at most in its [Context] field: the kind tag and the body of a KV
    request, and the data of a coprocessor request, are as they were. *)
Theorem request_changes_only_in_context {W} `{Collaborators W}
  (id : RegionVerID) (timeout : Duration) :
  (forall fuel (s : St W KVRequest) out s',
      SendKVReq fuel id timeout s = Some (out, s') ->
      kvreq_Type (st_req s') = kvreq_Type (st_req s) /\
      kvreq_Body (st_req s') = kvreq_Body (st_req s))
  /\
  (forall fuel (s : St W CopRequest) out s',
      SendCopReq fuel id timeout s = Some (out, s') ->
      copreq_Data (st_req s') = copreq_Data (st_req s)).
Proof.
  split; intros fuel s out s' Hsend.
  - unfold SendKVReq in Hsend.
    refine (loop_final_state (SendKVReq_body id timeout)
              (fun s0 => kvreq_Type (st_req s0) = kvreq_Type (st_req s) /\
                         kvreq_Body (st_req s0) = kvreq_Body (st_req s))
              _ fuel s out s' (conj eq_refl eq_refl) Hsend).
    intros s0 [Hty Hbody].
    destruct (kv_pass_effect id timeout s0)
      as (evs & _ & [[_ Hreq] | (region & pre & post & _ & _ & Hreq & _)]);
      rewrite Hreq; simpl; split; assumption.
  - unfold SendCopReq in Hsend.
    refine (loop_final_state (SendCopReq_body id timeout)
              (fun s0 => copreq_Data (st_req s0) = copreq_Data (st_req s))
              _ fuel s out s' eq_refl Hsend).
    intros s0 Hdata.
    destruct (cop_pass_effect id timeout s0)
      as (evs & _ & [[_ Hreq] | (region & pre & post & _ & Hreq & _)]);
      rewrite Hreq; simpl; assumption.
Qed.

(** After the end-to-end scenario (Not-Leader from p1, an answer from p2) the
    request has kept its kind and body; so has the coprocessor request after
    a timeout and an answer. *)
Lemma request_frame_witness :
  let sk := Scripted.kvStart
              (Scripted.kvWorld 0
                 [inl (mkKVResponse 1 (Some (Scripted.notLeaderErr (Some Scripted.p2))) "");
                  inl Scripted.okKV]) in
  let sc := Scripted.copStart
              (Scripted.copWorld 1 [inr (ErrOpaque "timeout"); inl Scripted.okCop]) in
  let sk' := snd (SendKVReq_body Scripted.R1 10 (snd (SendKVReq_body Scripted.R1 10 sk))) in
  let sc' := snd (SendCopReq_body Scripted.R1 10 (snd (SendCopReq_body Scripted.R1 10 sc))) in
  (kvreq_Type (st_req sk') = kvreq_Type (st_req sk) /\
   kvreq_Body (st_req sk') = kvreq_Body (st_req sk))
  /\ copreq_Data (st_req sc') = copreq_Data (st_req sc).
Proof.
  intros sk sc sk' sc'. split.
  - refine (proj1 (request_changes_only_in_context Scripted.R1 10) 2%nat sk
              (Some Scripted.okKV, None) sk' _). reflexivity.
  - refine (proj2 (request_changes_only_in_context Scripted.R1 10) 2%nat sc
              (Some Scripted.okCop, None) sc' _). reflexivity.
Defined.

(** Persistent Not-Leader: as long as every world the call passes through
    has the context live, resolves the region and answers Not-Leader naming
    a leader, the call goes round for ever: each of its first [n] passes
    ends in a retry, none of them charges a backoff budget, and no amount of
    fuel makes it return. *)
Theorem not_leader_livelock {W} `{Collaborators W}
  (id : RegionVerID) (timeout : Duration) (Inv : W -> Prop) :
  (forall w, Inv w ->
     ctx_Err w = None /\
     exists region, GetRegionByVerID w id = Some region /\
       forall req : KVRequest, exists w1 resp e nl p,
         client_SendKVReq w (region_Address region) req timeout = (w1, inl resp) /\
         kvresp_RegionError resp = Some e /\
         err_NotLeader e = Some nl /\ nl_Leader nl = Some p /\
         Inv (UpdateLeader w1 (region_VerID region) (peer_Id p))) ->
  forall (n : nat) (s : St W KVRequest),
    Inv (st_world s) ->
    SendKVReq n id timeout s = None /\
    exists s',
      retried (SendKVReq_body id timeout) n s = Some s' /\
      Inv (st_world s') /\
      filter is_backoff (st_log s') = filter is_backoff (st_log s).
Proof.
  intros Hw. induction n as [|n IH]; intros s Hinv.
  - split; [reflexivity|]. exists s. repeat split. exact Hinv.
  - destruct (Hw _ Hinv) as (Hctx & region & Hreg & Hsend).
    destruct (Hsend (KVRequest_setContext (st_req s) (region_Context region)))
      as (w1 & resp & e & nl & p & Hs & He & Hnl & Hp & Hnext).
    assert (Hbody : SendKVReq_body id timeout s =
              (Continue,
               logged (kvDispatched s id region timeout w1)
                 (UpdateLeader w1 (region_VerID region) (peer_Id p))
                 [EvReportRegionError e;
                  EvUpdateLeader (region_VerID region) (peer_Id p)])).
    { rewrite (kv_pass_response id timeout s region w1 Hctx Hreg resp Hs), He.
      rewrite (onRegionError_NotLeader_leader region e _ nl p Hnl Hp). reflexivity. }
    destruct (IH (logged (kvDispatched s id region timeout w1)
                    (UpdateLeader w1 (region_VerID region) (peer_Id p))
                    [EvReportRegionError e;
                     EvUpdateLeader (region_VerID region) (peer_Id p)]) Hnext)
      as (Hnone & s' & Hret & Hinv' & Hlog).
    split.
    + unfold SendKVReq in *. rewrite (loop_continue _ n s _ Hbody). exact Hnone.
    + exists s'. simpl. rewrite Hbody. split; [exact Hret|]. split; [exact Hinv'|].
      rewrite Hlog. unfold logged, kvDispatched. simpl.
      rewrite !filter_app. simpl. rewrite !app_nil_r. reflexivity.
Qed.

(** The stubborn server keeps a KV call going for any number of passes. *)
Lemma not_leader_livelock_witness :
  let s : St unit KVRequest := mkSt tt Scripted.kvReq [] in
  SendKVReq 4 Scripted.R1 10 s = None /\
  exists s',
    retried (SendKVReq_body Scripted.R1 10) 4 s = Some s' /\
    True /\
    filter is_backoff (st_log s') = filter is_backoff (st_log s).
Proof.
  intros s.
  refine (not_leader_livelock Scripted.R1 10 (fun _ => True) _ 4 s I).
  intros w _. split; [reflexivity|].
  exists Stubborn.region0. split; [reflexivity|].
  intros req.
  exists w, (mkKVResponse (kvreq_Type req) (Some Stubborn.answer) ""),
    Stubborn.answer, (mkNotLeader 1 (Some (mkPeer 102 2))), (mkPeer 102 2).
  split; [reflexivity|]. split; [reflexivity|]. split; [reflexivity|].
  split; [reflexivity | exact I].
Defined.

(** Precedence among the fields of a region error: recovery acts on the
    first field present, in the order Not-Leader, Stale-Epoch, Server-Busy,
    and the fields after it make no difference to the retry decision, to
    the error returned or to the world it leaves. *)
Theorem first_field_decides_recovery {W} `{Collaborators W} {Req}
  (region : Region) (e : Error) (s : St W Req) :
  fst (onRegionError region e s) = fst (onRegionError region (first_field e) s) /\
  st_world (snd (onRegionError region e s)) =
    st_world (snd (onRegionError region (first_field e) s)).
Proof.
  unfold first_field.
  destruct (err_NotLeader e) as [nl|] eqn:Hnl.
  - destruct (nl_Leader nl) as [p|] eqn:Hp.
    + rewrite (onRegionError_NotLeader_leader region e s nl p Hnl Hp).
      rewrite (onRegionError_NotLeader_leader region
                 (mkError (err_Message e) (Some nl) None None) s nl p eq_refl Hp).
      split; reflexivity.
    + destruct (Backoff (UpdateLeader (st_world s) (region_VerID region) 0)
                  boRegionMiss (ErrNotLeader nl (region_Context region)))
        as [w2 r] eqn:Hb.
      rewrite (onRegionError_NotLeader_unknown region e s nl w2 r Hnl Hp Hb).
      rewrite (onRegionError_NotLeader_unknown region
                 (mkError (err_Message e) (Some nl) None None) s nl w2 r
                 eq_refl Hp Hb).
      split; reflexivity.
  - destruct (err_StaleEpoch e) as [se|] eqn:Hse; [|split; reflexivity].
    destruct (OnRegionStale (st_world s) region (se_NewRegions se))
      as [w2 r] eqn:Hc.
    rewrite (onRegionError_StaleEpoch region e s se w2 r Hnl Hse Hc).
    rewrite (onRegionError_StaleEpoch region
               (mkError (err_Message e) None (Some se) None) s se w2 r
               eq_refl eq_refl Hc).
    split; reflexivity.
Qed.

(** ** Runs against a flaky transport *)

Section FlakyRuns.

Import Scripted.

Variables (id : RegionVerID) (timeout : Duration).
Variables (peers : list (Peer * string)) (err : error) (resp : KVResponse).

Lemma RegionVerID_eqb_refl (a : RegionVerID) : RegionVerID_eqb a a = true.
Proof. unfold RegionVerID_eqb. rewrite !Z.eqb_refl. reflexivity. Qed.

(** The snapshot the one-region cache hands out when peer [sel] is selected. *)
Lemma flaky_getRegion sel budget script p addr :
  nth_error peers sel = Some (p, addr) ->
  getRegion (mkWorld None (oneRegion id peers sel) None budget script []) id =
    Some (mkRegion id (mkContext (ver_region id) (ver_epoch id) (peer_Id p)) addr).
Proof.
  intros Hnth. unfold getRegion, oneRegion. simpl.
  rewrite RegionVerID_eqb_refl. simpl. rewrite Hnth. reflexivity.
Qed.

(** A pass that meets a transport failure with budget left: it goes round
    again with the next peer selected, one charge spent and the head of the
    script consumed. *)
Lemma flaky_pass_retries sel budget n req lg p addr :
  nth_error peers sel = Some (p, addr) ->
  let ctx := mkContext (ver_region id) (ver_epoch id) (peer_Id p) in
  SendKVReq_body id timeout
    (mkSt (flaky id peers sel (S budget) (S n) err resp) req lg) =
    (Continue,
     mkSt (flaky id peers (Nat.modulo (S sel) (List.length peers)) budget n err resp)
       (KVRequest_setContext req ctx)
       (lg ++ [EvCtxDone; EvGetRegionByVerID id;
               EvSendKVReq addr (KVRequest_setContext req ctx) timeout;
               EvNextPeer id; EvBackoff boTiKVRPC (ErrSendFail err ctx)])).
Proof.
  intros Hnth ctx.
  rewrite (kv_pass_send_fail id timeout
             (mkSt (flaky id peers sel (S budget) (S n) err resp) req lg)
             (mkRegion id ctx addr) (flaky id peers sel (S budget) n err resp))
    with (err := err) (r := None)
         (w2 := flaky id peers (Nat.modulo (S sel) (List.length peers)) budget n err resp).
  - unfold logged, kvDispatched. simpl. rewrite <- app_assoc. reflexivity.
  - reflexivity.
  - apply flaky_getRegion. exact Hnth.
  - reflexivity.
  - unfold flaky, oneRegion. simpl. unfold nextPeer, backoff, withCache. simpl.
    rewrite RegionVerID_eqb_refl. reflexivity.
Qed.

(** The same pass with the budget spent: the call ends with the backoffer's
    error and the rest of the script is left unread. *)
Lemma flaky_pass_exhausted sel n req lg p addr :
  nth_error peers sel = Some (p, addr) ->
  let ctx := mkContext (ver_region id) (ver_epoch id) (peer_Id p) in
  SendKVReq_body id timeout
    (mkSt (flaky id peers sel 0 (S n) err resp) req lg) =
    (Return (None,
             Some (Traced (Traced (Traced (ErrOpaque "backoffer.maxSleep is exceeded"))))),
     mkSt (flaky id peers (Nat.modulo (S sel) (List.length peers)) 0 n err resp)
       (KVRequest_setContext req ctx)
       (lg ++ [EvCtxDone; EvGetRegionByVerID id;
               EvSendKVReq addr (KVRequest_setContext req ctx) timeout;
               EvNextPeer id; EvBackoff boTiKVRPC (ErrSendFail err ctx)])).
Proof.
  intros Hnth ctx.
  rewrite (kv_pass_send_fail id timeout
             (mkSt (flaky id peers sel 0 (S n) err resp) req lg)
             (mkRegion id ctx addr) (flaky id peers sel 0 n err resp))
    with (err := err) (r := Some (ErrOpaque "backoffer.maxSleep is exceeded"))
         (w2 := flaky id peers (Nat.modulo (S sel) (List.length peers)) 0 n err resp).
  - unfold logged, kvDispatched. simpl. rewrite <- app_assoc. reflexivity.
  - reflexivity.
  - apply flaky_getRegion. exact Hnth.
  - reflexivity.
  - unfold flaky, oneRegion. simpl. unfold nextPeer, backoff, withCache. simpl.
    rewrite RegionVerID_eqb_refl. reflexivity.
Qed.

(** The pass that meets the answer: it ends in the kind check. *)
Lemma flaky_pass_answers sel budget req lg p addr :
  nth_error peers sel = Some (p, addr) ->
  kvresp_RegionError resp = None ->
  let ctx := mkContext (ver_region id) (ver_epoch id) (peer_Id p) in
  SendKVReq_body id timeout
    (mkSt (flaky id peers sel budget 0 err resp) req lg) =
    (Return (if MessageType_eqb (kvresp_Type resp) (kvreq_Type req)
             then (Some resp, None)
             else (None,
                   Some (Traced (errMismatch (Some resp)
                                   (KVRequest_setContext req ctx))))),
     mkSt (mkWorld None (oneRegion id peers sel) None budget [] [])
       (KVRequest_setContext req ctx)
       (lg ++ [EvCtxDone; EvGetRegionByVerID id;
               EvSendKVReq addr (KVRequest_setContext req ctx) timeout])).
Proof.
  intros Hnth Hnone ctx.
  rewrite (kv_pass_response id timeout
             (mkSt (flaky id peers sel budget 0 err resp) req lg)
             (mkRegion id ctx addr)
             (mkWorld None (oneRegion id peers sel) None budget [] []))
    with (resp := resp).
  - rewrite Hnone, kvReturn_eq. unfold kvDispatched. reflexivity.
  - reflexivity.
  - apply flaky_getRegion. exact Hnth.
  - reflexivity.
Qed.

Lemma selected_peer sel :
  (sel < List.length peers)%nat -> exists p addr, nth_error peers sel = Some (p, addr).
Proof.
  intros Hlt. destruct (nth_error peers sel) as [[p addr]|] eqn:Hnth.
  - eauto.
  - apply nth_error_None in Hnth. lia.
Qed.

Lemma next_selected sel :
  (sel < List.length peers)%nat ->
  (Nat.modulo (S sel) (List.length peers) < List.length peers)%nat.
Proof. intros Hlt. apply Nat.mod_upper_bound. lia. Qed.

End FlakyRuns.

(** Transient failures within the budget: when the transport fails [n] times
    and then answers with a Response that carries no Region Error, and the
    backoffer has at least [n] charges left, [SendKVReq] returns in pass
    [n + 1]: that Response when it has the request's kind tag, the
    protocol-mismatch error when it has another.  By then it has made
    [n + 1] transport calls, advanced the peer [n] times (round the peer
    list) and spent [n] charges. *)
Theorem transient_failures_then_success
  (id : RegionVerID) (timeout : Duration) (peers : list (Peer * string))
  (err : error) (resp : KVResponse) :
  kvresp_RegionError resp = None ->
  forall (n budget sel : nat) (req : KVRequest) (lg : list Event),
    (sel < List.length peers)%nat ->
    (n <= budget)%nat ->
    exists s',
      SendKVReq (S n) id timeout
        (mkSt (Scripted.flaky id peers sel budget n err resp) req lg)
        = Some (if MessageType_eqb (kvresp_Type resp) (kvreq_Type req)
                then (Some resp, None)
                else (None, Some (Traced (errMismatch (Some resp) (st_req s')))),
                s') /\
      st_world s' =
        Scripted.mkWorld None
          (Scripted.oneRegion id peers (Nat.modulo (sel + n) (List.length peers)))
          None (budget - n) [] [] /\
      List.length (filter is_next_peer (st_log s')) =
        (List.length (filter is_next_peer lg) + n)%nat /\
      List.length (filter is_transport (st_log s')) =
        (List.length (filter is_transport lg) + S n)%nat.
Proof.
  intros Hnone. induction n as [|n IH]; intros budget sel req lg Hsel Hle.
  - destruct (selected_peer peers sel Hsel) as (p & addr & Hnth).
    exists (mkSt (Scripted.mkWorld None (Scripted.oneRegion id peers sel) None budget [] [])
              (KVRequest_setContext req
                 (mkContext (ver_region id) (ver_epoch id) (peer_Id p)))
              (lg ++ [EvCtxDone; EvGetRegionByVerID id;
                      EvSendKVReq addr
                        (KVRequest_setContext req
                           (mkContext (ver_region id) (ver_epoch id) (peer_Id p)))
                        timeout])).
    split.
    + apply loop_return.
      exact (flaky_pass_answers id timeout peers err resp sel budget req lg p addr
               Hnth Hnone).
    + simpl. rewrite Nat.add_0_r, Nat.sub_0_r, (Nat.mod_small _ _ Hsel).
      rewrite !filter_app, !length_app. simpl. repeat split; lia.
  - destruct budget as [|budget]; [lia|].
    destruct (selected_peer peers sel Hsel) as (p & addr & Hnth).
    pose proof (flaky_pass_retries id timeout peers err resp sel budget n req lg p addr
                  Hnth) as Hpass.
    simpl in Hpass.
    destruct (IH budget (Nat.modulo (S sel) (List.length peers))
                (KVRequest_setContext req
                   (mkContext (ver_region id) (ver_epoch id) (peer_Id p)))
                (lg ++ [EvCtxDone; EvGetRegionByVerID id;
                        EvSendKVReq addr
                          (KVRequest_setContext req
                             (mkContext (ver_region id) (ver_epoch id) (peer_Id p)))
                          timeout;
                        EvNextPeer id;
                        EvBackoff boTiKVRPC
                          (ErrSendFail err
                             (mkContext (ver_region id) (ver_epoch id) (peer_Id p)))])
                (next_selected peers sel Hsel) ltac:(lia))
      as (s' & Hsend & Hworld & Hnext & Htrans).
    exists s'. split.
    + unfold SendKVReq in *. rewrite (loop_continue _ (S n) _ _ Hpass). exact Hsend.
    + rewrite Hworld, Hnext, Htrans.
      rewrite !filter_app, !length_app. simpl.
      rewrite Nat.Div0.add_mod_idemp_l.
      replace (S sel + n)%nat with (sel + S n)%nat by lia.
      repeat split; lia.
Qed.

(** Two timeouts and an answer of the right kind, over two peers and a
    budget of five. *)
Lemma transient_failures_witness :
  let peers := [(Scripted.p1, "store1:20160"); (Scripted.p2, "store2:20160")] in
  exists s',
    SendKVReq 3 Scripted.R1 10
      (mkSt (Scripted.flaky Scripted.R1 peers 0 5 2 (ErrOpaque "timeout") Scripted.okKV)
         Scripted.kvReq [])
      = Some ((Some Scripted.okKV, None), s') /\
    st_world s' =
      Scripted.mkWorld None (Scripted.oneRegion Scripted.R1 peers (Nat.modulo (0 + 2) 2))
        None (5 - 2) [] [] /\
    List.length (filter is_next_peer (st_log s')) = (0 + 2)%nat /\
    List.length (filter is_transport (st_log s')) = (0 + 3)%nat.
Proof.
  intros peers.
  refine (transient_failures_then_success Scripted.R1 10 peers (ErrOpaque "timeout")
            Scripted.okKV _ 2 5 0 Scripted.kvReq [] _ _);
    try reflexivity; simpl; lia.
Defined.

(** Failures beyond the budget: when the transport keeps failing after the
    backoffer's [budget] charges are spent, [SendKVReq] returns the
    backoffer's error from pass [budget + 1]; it has made [budget + 1]
    transport calls and makes no more: what is left of the transport's script,
    the answer included, is never asked for. *)
Theorem failures_beyond_budget
  (id : RegionVerID) (timeout : Duration) (peers : list (Peer * string))
  (err : error) (resp : KVResponse) :
  forall (budget k sel : nat) (req : KVRequest) (lg : list Event),
    (sel < List.length peers)%nat ->
    exists s',
      SendKVReq (S budget) id timeout
        (mkSt (Scripted.flaky id peers sel budget (S (budget + k)) err resp) req lg)
        = Some ((None,
                 Some (Traced (Traced (Traced
                         (ErrOpaque "backoffer.maxSleep is exceeded"))))), s') /\
      Scripted.w_kv (st_world s') = repeat (inr err) k ++ [inl resp] /\
      List.length (filter is_transport (st_log s')) =
        (List.length (filter is_transport lg) + S budget)%nat.
Proof.
  induction budget as [|budget IH]; intros k sel req lg Hsel;
    destruct (selected_peer peers sel Hsel) as (p & addr & Hnth).
  - eexists. split.
    + apply loop_return.
      exact (flaky_pass_exhausted id timeout peers err resp sel (0 + k) req lg p addr
               Hnth).
    + simpl. rewrite !filter_app, !length_app. simpl. split; [reflexivity | lia].
  - pose proof (flaky_pass_retries id timeout peers err resp sel budget
                  (S (budget + k)) req lg p addr Hnth) as Hpass.
    simpl in Hpass.
    destruct (IH k (Nat.modulo (S sel) (List.length peers))
                (KVRequest_setContext req
                   (mkContext (ver_region id) (ver_epoch id) (peer_Id p)))
                (lg ++ [EvCtxDone; EvGetRegionByVerID id;
                        EvSendKVReq addr
                          (KVRequest_setContext req
                             (mkContext (ver_region id) (ver_epoch id) (peer_Id p)))
                          timeout;
                        EvNextPeer id;
                        EvBackoff boTiKVRPC
                          (ErrSendFail err
                             (mkContext (ver_region id) (ver_epoch id) (peer_Id p)))])
                (next_selected peers sel Hsel))
      as (s' & Hsend & Hrest & Htrans).
    exists s'. split.
    + unfold SendKVReq in *.
      change (S (S budget + k)) with (S (S (budget + k))).
      rewrite (loop_continue _ (S budget) _ _ Hpass). exact Hsend.
    + split; [exact Hrest|]. rewrite Htrans.
      rewrite !filter_app, !length_app. simpl. lia.
Qed.

(** Three timeouts against a budget of one charge: the call gives up after
    the second, and the third timeout and the answer stay in the script. *)
Lemma failures_beyond_budget_witness :
  let peers := [(Scripted.p1, "store1:20160"); (Scripted.p2, "store2:20160")] in
  exists s',
    SendKVReq 2 Scripted.R1 10
      (mkSt (Scripted.flaky Scripted.R1 peers 0 1 (S (1 + 1)) (ErrOpaque "timeout")
               Scripted.okKV)
         Scripted.kvReq [])
      = Some ((None,
               Some (Traced (Traced (Traced
                       (ErrOpaque "backoffer.maxSleep is exceeded"))))), s') /\
    Scripted.w_kv (st_world s') =
      repeat (inr (ErrOpaque "timeout")) 1 ++ [inl Scripted.okKV] /\
    List.length (filter is_transport (st_log s')) = (0 + 2)%nat.
Proof.
  intros peers.
  refine (failures_beyond_budget Scripted.R1 10 peers (ErrOpaque "timeout")
            Scripted.okKV 1 1 0 Scripted.kvReq [] _).
  simpl. lia.
Defined.
